(** * SkillSwap back end: the swap-request engine and the skill catalog

    A shallow embedding of the Express/Mongoose handlers of
    [controllers/swapRequests.js] and [controllers/skills.js] over the
    schemas of [models/skill.js], [models/swapRequest.js] and
    [models/user.js].

    Conventions of the embedding:
    - a MongoDB collection is a finite map from [_id] to the document's
      fields; a document in flight is the pair of its [_id] and fields;
    - an [ObjectId] is its 96-bit value, so [a.toString() === b] on ids is
      equality; ids arriving in a request are well-formed ObjectIds;
    - an optional string ([undefined] when absent) is an [option string];
    - a handler is a function from the store to the response it sends and
      the store it leaves; the clock reading used by Mongoose's
      [timestamps: true] is an explicit argument [now];
    - Mongoose drops [undefined] keys from an update document;
    - a store call answers and does not throw, so the [catch] blocks' 500
      is sent only where the handler's own code throws. *)

From Stdlib Require Import ZArith.
From stdpp Require Import gmap strings list sorting.

Open Scope Z_scope.

Abbreviation ObjectId := N (only parsing).

(** ** Schemas *)

(** [models/user.js]; the [skillsOffered]/[skillsWanted] id arrays are
    never read by the handlers embedded here and are left out. *)
Record User := mkUser {
  username : string;
  hashedPassword : string;
  name : option string;
  location : option string;
  bio : option string;
}.

(** [models/skill.js] *)
Record Skill := mkSkill {
  user : ObjectId;
  skillName : string;
  category : string;
  skillLevel : string;
  timeFrame : option string;
  description : option string;
  type : string;
  isActive : bool;
  skill_createdAt : Z;
  skill_updatedAt : Z;
}.

(** [models/swapRequest.js] *)
Record SwapRequest := mkSwapRequest {
  requester : ObjectId;
  skillProvider : ObjectId;
  skillRequested : ObjectId;
  skillOffered : ObjectId;
  status : string;
  comments : option string;
  requestMessage : option string;
  responseMessage : option string;
  createdAt : Z;
  updatedAt : Z;
}.

(** The three collections of the database. *)
Record Store := mkStore {
  users : gmap N User;
  skills : gmap N Skill;
  swapRequests : gmap N SwapRequest;
}.

(** ** Mongoose queries *)

(** [Model.findById(id)]: the document, or [null]. *)
Definition findById {A} (m : gmap N A) (id : option ObjectId) : option (ObjectId * A) :=
  i ← id; d ← m !! i; Some (i, d).

(** [Model.findByIdAndUpdate(id, update, { new: true })]: the collection
    after the update and the updated document, or [null]. *)
Definition findByIdAndUpdate {A} (m : gmap N A) (id : ObjectId) (update : A → A)
  : gmap N A * option (ObjectId * A) :=
  let m' := alter update id m in (m', findById m' (Some id)).

(** [.populate(path, 'username name location')] *)
Record UserSummary := mkUserSummary {
  us_id : ObjectId;
  us_username : string;
  us_name : option string;
  us_location : option string;
}.

Definition summary (d : ObjectId * User) : UserSummary :=
  {| us_id := d.1; us_username := username d.2;
     us_name := name d.2; us_location := location d.2 |}.

Definition populate_user (st : Store) (id : ObjectId) : option UserSummary :=
  summary <$> findById (users st) (Some id).

(** [.populate('skillRequested')]: the whole skill document, whatever its
    [isActive] flag. *)
Definition populate_skill (st : Store) (id : ObjectId) : option (ObjectId * Skill) :=
  findById (skills st) (Some id).

(** A swap request with its four references populated. *)
Record SwapRequestView := mkView {
  v_id : ObjectId;
  v_requester : option UserSummary;
  v_skillProvider : option UserSummary;
  v_skillRequested : option (ObjectId * Skill);
  v_skillOffered : option (ObjectId * Skill);
  v_status : string;
  v_comments : option string;
  v_requestMessage : option string;
  v_responseMessage : option string;
  v_createdAt : Z;
  v_updatedAt : Z;
}.

Definition populate (st : Store) (d : ObjectId * SwapRequest) : SwapRequestView :=
  {| v_id := d.1;
     v_requester := populate_user st (requester d.2);
     v_skillProvider := populate_user st (skillProvider d.2);
     v_skillRequested := populate_skill st (skillRequested d.2);
     v_skillOffered := populate_skill st (skillOffered d.2);
     v_status := status d.2;
     v_comments := comments d.2;
     v_requestMessage := requestMessage d.2;
     v_responseMessage := responseMessage d.2;
     v_createdAt := createdAt d.2;
     v_updatedAt := updatedAt d.2 |}.

(** [.sort({ createdAt: -1 })] on swap requests. Among requests created
    at the same instant MongoDB promises no order; the listings below take
    the one a merge sort of the collection gives. *)
Definition newest_first : relation (ObjectId * SwapRequest) :=
  λ a b, createdAt b.2 ≤ createdAt a.2.

#[global] Instance newest_first_dec a b : Decision (newest_first a b) :=
  Z_le_dec (createdAt b.2) (createdAt a.2).

(** The same order on populated requests. *)
Definition newest_view_first : relation SwapRequestView :=
  λ a b, v_createdAt b ≤ v_createdAt a.

(** [SwapRequest.find(filter).populate(...).sort({ createdAt: -1 })] *)
Definition find_requests (P : SwapRequest → Prop) `{∀ r, Decision (P r)}
    (st : Store) : list SwapRequestView :=
  populate st <$>
    merge_sort newest_first (filter (λ d, P d.2) (map_to_list (swapRequests st))).

(** ** Responses *)

(** A skill with its [user] path populated. *)
Record SkillView := mkSkillView {
  sv_id : ObjectId;
  sv_skill : Skill;
  sv_user : option UserSummary;
}.

Inductive Body :=
  | Err (err : string)
  | Message (message : string)
  | RequestJson (doc : option SwapRequestView)
  | RequestsJson (docs : list SwapRequestView)
  | SkillsJson (docs : list SkillView)
  | MySkillsJson (docs : list (ObjectId * Skill))
  | SearchJson (offered wanted : list SkillView) (total : nat).

Record Response := mkResponse { code : Z; body : Body }.

Definition Handler : Type := Store → Response * Store.

(** [return res.status(c).json({ err })], the store untouched. *)
Definition reject (c : Z) (msg : string) : Handler :=
  λ st, (mkResponse c (Err msg), st).

(** ** [controllers/swapRequests.js] *)

Module SwapRequests.

(** [GET /] *)
Definition listAll (caller : ObjectId) : Handler := λ st,
  (mkResponse 200
     (RequestsJson
        (find_requests (λ r, requester r = caller ∨ skillProvider r = caller) st)),
   st).

(** [GET /received] *)
Definition listReceived (caller : ObjectId) : Handler := λ st,
  (mkResponse 200 (RequestsJson (find_requests (λ r, skillProvider r = caller) st)), st).

(** [GET /sent] *)
Definition listSent (caller : ObjectId) : Handler := λ st,
  (mkResponse 200 (RequestsJson (find_requests (λ r, requester r = caller) st)), st).

(** The body of [POST /]. *)
Record CreateBody := mkCreateBody {
  skillRequestedId : option ObjectId;
  skillOfferedId : option ObjectId;
  b_comments : option string;
  b_requestMessage : option string;
}.

(** [SwapRequest.create({...})]: the schema default gives the status and
    the clock both timestamps; the [_id] is the driver's, new to the
    collection. *)
Definition new_request (caller : ObjectId) (provider reqId offId : ObjectId)
    (b : CreateBody) (now : Z) : SwapRequest :=
  {| requester := caller;
     skillProvider := provider;
     skillRequested := reqId;
     skillOffered := offId;
     status := "pending";
     comments := b_comments b;
     requestMessage := b_requestMessage b;
     responseMessage := None;
     createdAt := now;
     updatedAt := now |}.

Definition insert_request (rid : ObjectId) (r : SwapRequest) (st : Store) : Store :=
  {| users := users st; skills := skills st;
     swapRequests := <[rid := r]> (swapRequests st) |}.

(** [POST /] *)
Definition create (caller : ObjectId) (b : CreateBody) (now : Z) : Handler := λ st,
  match findById (skills st) (skillRequestedId b),
        findById (skills st) (skillOfferedId b) with
  | Some (reqId, skillRequested), Some (offId, skillOffered) =>
      if decide (user skillRequested = caller) then
        reject 400 "Cannot create swap request with yourself." st
      else if decide (user skillOffered ≠ caller) then
        reject 403 "You can only offer skills you own." st
      else
        let rid := fresh (dom (swapRequests st)) in
        let st' :=
          insert_request rid
            (new_request caller (user skillRequested) reqId offId b now) st in
        (mkResponse 201
           (RequestJson (populate st' <$> findById (swapRequests st') (Some rid))),
         st')
  | _, _ => reject 404 "One or both skills not found." st
  end.

(** The update documents of the three [PUT] routes; [updatedAt] follows
    from [timestamps: true]. *)
Definition set_response (newStatus : string) (msg : option string) (now : Z)
    (r : SwapRequest) : SwapRequest :=
  {| requester := requester r;
     skillProvider := skillProvider r;
     skillRequested := skillRequested r;
     skillOffered := skillOffered r;
     status := newStatus;
     comments := comments r;
     requestMessage := requestMessage r;
     responseMessage := match msg with Some m => Some m | None => responseMessage r end;
     createdAt := createdAt r;
     updatedAt := now |}.

Definition set_status (newStatus : string) (now : Z) (r : SwapRequest) : SwapRequest :=
  set_response newStatus None now r.

(** [SwapRequest.findByIdAndUpdate(rid, update, { new: true }).populate(...)]
    followed by [res.json(updatedRequest)]. *)
Definition update_and_send (rid : ObjectId) (update : SwapRequest → SwapRequest)
  : Handler := λ st,
  let '(m', doc) := findByIdAndUpdate (swapRequests st) rid update in
  let st' := {| users := users st; skills := skills st; swapRequests := m' |} in
  (mkResponse 200 (RequestJson (populate st' <$> doc)), st').

(** [PUT /:requestId/accept], from the point where [findById] has
    answered. *)
Definition accept_found (caller rid : ObjectId) (responseMsg : option string)
    (now : Z) (found : option (ObjectId * SwapRequest)) : Handler :=
  match found with
  | None => reject 404 "Swap request not found."
  | Some (_, swapRequest) =>
      if decide (skillProvider swapRequest ≠ caller) then
        reject 403 "You can only accept requests sent to you."
      else if decide (status swapRequest ≠ "pending") then
        reject 400 "This request has already been answered."
      else update_and_send rid (set_response "accepted" responseMsg now)
  end.

(** [PUT /:requestId/accept] *)
Definition accept (caller rid : ObjectId) (responseMsg : option string) (now : Z)
  : Handler := λ st,
  accept_found caller rid responseMsg now (findById (swapRequests st) (Some rid)) st.

(** [PUT /:requestId/decline], from the point where [findById] has
    answered. *)
Definition decline_found (caller rid : ObjectId) (responseMsg : option string)
    (now : Z) (found : option (ObjectId * SwapRequest)) : Handler :=
  match found with
  | None => reject 404 "Swap request not found."
  | Some (_, swapRequest) =>
      if decide (skillProvider swapRequest ≠ caller) then
        reject 403 "You can only decline requests sent to you."
      else if decide (status swapRequest ≠ "pending") then
        reject 400 "This request has already been answered."
      else update_and_send rid (set_response "declined" responseMsg now)
  end.

(** [PUT /:requestId/decline] *)
Definition decline (caller rid : ObjectId) (responseMsg : option string) (now : Z)
  : Handler := λ st,
  decline_found caller rid responseMsg now (findById (swapRequests st) (Some rid)) st.

Definition validStatuses : list string := ["in-progress"; "completed"].

Definition dquote : string := String (Ascii.ascii_of_nat 34) "".

Definition invalid_status_msg : string :=
  "Invalid status. Use " +:+ dquote +:+ "in-progress" +:+ dquote +:+ " or "
    +:+ dquote +:+ "completed" +:+ dquote +:+ ".".

Definition cannot_start_msg : string :=
  "Can't start until both people have agreed to the swap.".

(** [PUT /:requestId/status]; [newStatus] is [req.body.status]. *)
Definition updateStatus (caller rid : ObjectId) (newStatus : option string) (now : Z)
  : Handler := λ st,
  match findById (swapRequests st) (Some rid) with
  | None => reject 404 "Swap request not found." st
  | Some (_, swapRequest) =>
      if decide (requester swapRequest ≠ caller ∧ skillProvider swapRequest ≠ caller)
      then reject 403 "You can only update swaps you're part of." st
      else
        match newStatus with
        | Some s =>
            if decide (s ∉ validStatuses) then reject 400 invalid_status_msg st
            else if decide (status swapRequest ≠ "accepted" ∧ s = "in-progress")
            then reject 400 cannot_start_msg st
            else update_and_send rid (set_status s now) st
        | None => reject 400 invalid_status_msg st
        end
  end.

End SwapRequests.

(** ** [controllers/skills.js] *)

Module Skills.

(** [.sort({ createdAt: -1 })] on skills. *)
Definition newest_skill_first : relation (ObjectId * Skill) :=
  λ a b, skill_createdAt b.2 ≤ skill_createdAt a.2.

#[global] Instance newest_skill_first_dec a b : Decision (newest_skill_first a b) :=
  Z_le_dec (skill_createdAt b.2) (skill_createdAt a.2).

(** [Skill.find(filter).sort({ createdAt: -1 })] *)
Definition find_skills (keep : Skill → bool) (st : Store) : list (ObjectId * Skill) :=
  merge_sort newest_skill_first
    (filter (λ d, keep d.2 = true) (map_to_list (skills st))).

(** [.populate('user', 'username name location')] *)
Definition populate_owner (st : Store) (d : ObjectId * Skill) : SkillView :=
  {| sv_id := d.1; sv_skill := d.2; sv_user := populate_user st (user d.2) |}.

(** A query-string parameter is used when it is truthy: present and not
    the empty string. *)
Definition given (q : option string) : option string :=
  match q with
  | Some s => if decide (s = "") then None else Some s
  | None => None
  end.

(** [if (p) query.path = p] on a required string path. *)
Definition matches_field (q : option string) (v : string) : bool :=
  match given q with
  | Some p => bool_decide (v = p)
  | None => true
  end.

(** [if (p) query.path = p] on an optional string path. *)
Definition matches_opt_field (q : option string) (v : option string) : bool :=
  match given q with
  | Some p => bool_decide (v = Some p)
  | None => true
  end.

(** [String.prototype.includes] *)
Fixpoint includes (s sub : string) : bool :=
  String.prefix sub s ||
  match s with
  | EmptyString => false
  | String _ s' => includes s' sub
  end.

(** The message of the [TypeError] raised by reading [location] of a
    [null] user, as V8 words it. *)
Definition null_user_msg : string :=
  "Cannot read properties of null (reading 'location')".

Section Catalog.

(** MongoDB's case-insensitive [$regex] match (pattern, then subject)
    and JavaScript's [toLowerCase] are parameters of the catalog. *)
Variable regex_i : string → string → bool.
Variable toLowerCase : string → string.

(** [query.$or = [{ skillName: { $regex } }, { description: { $regex } }]] *)
Definition matches_text (q : option string) (s : Skill) : bool :=
  match given q with
  | Some p =>
      regex_i p (skillName s) ||
      match description s with
      | Some d => regex_i p d
      | None => false
      end
  | None => true
  end.

(** [skill.user.location &&
     skill.user.location.toLowerCase().includes(location.toLowerCase())] *)
Definition lives_in (loc : string) (u : UserSummary) : bool :=
  match us_location u with
  | Some l =>
      if decide (l = "") then false
      else includes (toLowerCase l) (toLowerCase loc)
  | None => false
  end.

(** [skills.filter(skill => ...)] on the location; [None] when the
    callback throws because a skill's user populated to [null]. *)
Fixpoint filter_by_location (loc : string) (vs : list SkillView)
  : option (list SkillView) :=
  match vs with
  | [] => Some []
  | v :: vs' =>
      u ← sv_user v;
      rest ← filter_by_location loc vs';
      Some (if lives_in loc u then v :: rest else rest)
  end.

(** [if (location) { skills = skills.filter(...) }] *)
Definition by_location (q : option string) (vs : list SkillView)
  : option (list SkillView) :=
  match given q with
  | Some loc => filter_by_location loc vs
  | None => Some vs
  end.

(** The query string of [GET /skills]. *)
Record BrowseQuery := mkBrowseQuery {
  bq_search : option string;
  bq_category : option string;
  bq_skillLevel : option string;
  bq_type : option string;
  bq_location : option string;
}.

Definition browse_filter (q : BrowseQuery) (s : Skill) : bool :=
  isActive s
  && matches_text (bq_search q) s
  && matches_field (bq_category q) (category s)
  && matches_field (bq_skillLevel q) (skillLevel s)
  && matches_field (bq_type q) (type s).

(** [GET /] *)
Definition browse (q : BrowseQuery) : Handler := λ st,
  match by_location (bq_location q)
          (populate_owner st <$> find_skills (browse_filter q) st) with
  | Some vs => (mkResponse 200 (SkillsJson vs), st)
  | None => reject 500 null_user_msg st
  end.

(** The query string of [GET /skills/search]. *)
Record SearchQuery := mkSearchQuery {
  sq_q : option string;
  sq_category : option string;
  sq_skillLevel : option string;
  sq_type : option string;
  sq_location : option string;
  sq_timeFrame : option string;
}.

Definition search_filter (q : SearchQuery) (s : Skill) : bool :=
  isActive s
  && matches_text (sq_q q) s
  && matches_field (sq_category q) (category s)
  && matches_field (sq_skillLevel q) (skillLevel s)
  && matches_field (sq_type q) (type s)
  && matches_opt_field (sq_timeFrame q) (timeFrame s).

(** [GET /search] *)
Definition search (q : SearchQuery) : Handler := λ st,
  match by_location (sq_location q)
          (populate_owner st <$> find_skills (search_filter q) st) with
  | Some vs =>
      (mkResponse 200
         (SearchJson (filter (λ v, type (sv_skill v) = "offered") vs)
                     (filter (λ v, type (sv_skill v) = "wanted") vs)
                     (length vs)),
       st)
  | None => reject 500 null_user_msg st
  end.

End Catalog.

(** [GET /my-skills] *)
Definition mySkills (caller : ObjectId) : Handler := λ st,
  (mkResponse 200
     (MySkillsJson
        (find_skills (λ s, bool_decide (user s = caller) && isActive s) st)),
   st).

(** The update document [{ isActive: false }]. *)
Definition deactivate (now : Z) (s : Skill) : Skill :=
  {| user := user s;
     skillName := skillName s;
     category := category s;
     skillLevel := skillLevel s;
     timeFrame := timeFrame s;
     description := description s;
     type := type s;
     isActive := false;
     skill_createdAt := skill_createdAt s;
     skill_updatedAt := now |}.

(** [DELETE /:skillId] *)
Definition deleteSkill (caller sid : ObjectId) (now : Z) : Handler := λ st,
  match findById (skills st) (Some sid) with
  | None => reject 404 "Skill not found." st
  | Some (_, skill) =>
      if decide (user skill ≠ caller) then
        reject 403 "You can only delete your own skills." st
      else
        let '(m', _) := findByIdAndUpdate (skills st) sid (deactivate now) in
        (mkResponse 200 (Message "Skill deleted successfully."),
         {| users := users st; skills := m'; swapRequests := swapRequests st |})
  end.

(** The skill ids a response lists. *)
Definition listed_ids (b : Body) : list ObjectId :=
  match b with
  | SkillsJson vs => sv_id <$> vs
  | MySkillsJson ds => fst <$> ds
  | SearchJson offered wanted _ => (sv_id <$> offered) ++ (sv_id <$> wanted)
  | _ => []
  end.

End Skills.

(** ** The engine as a transition system *)

(** The requests the swap-request engine serves, with the catalog's soft
    delete it depends on; the caller is the identity [verifyToken] put in
    [req.user]. The catalog's other routes are not requests of this
    system. *)
Inductive Request :=
  | GetAll (caller : ObjectId)
  | GetReceived (caller : ObjectId)
  | GetSent (caller : ObjectId)
  | PostCreate (caller : ObjectId) (b : SwapRequests.CreateBody) (now : Z)
  | PutAccept (caller rid : ObjectId) (responseMsg : option string) (now : Z)
  | PutDecline (caller rid : ObjectId) (responseMsg : option string) (now : Z)
  | PutStatus (caller rid : ObjectId) (newStatus : option string) (now : Z)
  | DeleteSkill (caller sid : ObjectId) (now : Z).

Definition handle (rq : Request) : Handler :=
  match rq with
  | GetAll caller => SwapRequests.listAll caller
  | GetReceived caller => SwapRequests.listReceived caller
  | GetSent caller => SwapRequests.listSent caller
  | PostCreate caller b now => SwapRequests.create caller b now
  | PutAccept caller rid msg now => SwapRequests.accept caller rid msg now
  | PutDecline caller rid msg now => SwapRequests.decline caller rid msg now
  | PutStatus caller rid s now => SwapRequests.updateStatus caller rid s now
  | DeleteSkill caller sid now => Skills.deleteSkill caller sid now
  end.

(** The store after serving a sequence of requests one after the other. *)
Definition run (trace : list Request) (st : Store) : Store :=
  foldl (λ s rq, (handle rq s).2) st trace.


(** The store in which request [rid] has gone through [f] and nothing
    else has changed. *)
Definition updated (rid : ObjectId) (f : SwapRequest → SwapRequest) (st : Store) : Store :=
  {| users := users st; skills := skills st;
     swapRequests := alter f rid (swapRequests st) |}.

(** The store in which skill [sid] has gone through [f] and nothing else
    has changed. *)
Definition updated_skill (sid : ObjectId) (f : Skill → Skill) (st : Store) : Store :=
  {| users := users st; skills := alter f sid (skills st);
     swapRequests := swapRequests st |}.

(** The ways a request served by the engine can change the store: the
    writes the handlers reach, each under the guards that lead to it. *)
Inductive changes (st : Store) : Request → Store → Prop :=
  | created caller b now reqId offId s o :
      SwapRequests.skillRequestedId b = Some reqId →
      SwapRequests.skillOfferedId b = Some offId →
      skills st !! reqId = Some s →
      skills st !! offId = Some o →
      user s ≠ caller →
      user o = caller →
      changes st (PostCreate caller b now)
        (SwapRequests.insert_request (fresh (dom (swapRequests st)))
           (SwapRequests.new_request caller (user s) reqId offId b now) st)
  | accepted caller rid msg now r :
      swapRequests st !! rid = Some r →
      skillProvider r = caller →
      status r = "pending" →
      changes st (PutAccept caller rid msg now)
        (updated rid (SwapRequests.set_response "accepted" msg now) st)
  | declined caller rid msg now r :
      swapRequests st !! rid = Some r →
      skillProvider r = caller →
      status r = "pending" →
      changes st (PutDecline caller rid msg now)
        (updated rid (SwapRequests.set_response "declined" msg now) st)
  | advanced caller rid s now r :
      swapRequests st !! rid = Some r →
      requester r = caller ∨ skillProvider r = caller →
      s = "completed" ∨ (s = "in-progress" ∧ status r = "accepted") →
      changes st (PutStatus caller rid (Some s) now)
        (updated rid (SwapRequests.set_status s now) st)
  | archived caller sid now s :
      skills st !! sid = Some s →
      user s = caller →
      changes st (DeleteSkill caller sid now)
        (updated_skill sid (Skills.deactivate now) st).

(** ** Accept and decline as one operation *)

(** The two routes differ in the status they store and in the wording of
    their 403. *)
Inductive Verdict := Accept | Decline.

(** One call of either route: who calls, on which request, with which
    [responseMessage], at what time. *)
Record Call := mkCall {
  c_verdict : Verdict;
  c_caller : ObjectId;
  c_rid : ObjectId;
  c_msg : option string;
  c_now : Z;
}.

(** The status an answer leaves. *)
Definition answer (v : Verdict) : string :=
  match v with
  | Accept => "accepted"
  | Decline => "declined"
  end.

(** The route of the call's verdict. *)
Definition respond (c : Call) : Handler :=
  match c_verdict c with
  | Accept => SwapRequests.accept (c_caller c) (c_rid c) (c_msg c) (c_now c)
  | Decline => SwapRequests.decline (c_caller c) (c_rid c) (c_msg c) (c_now c)
  end.

(** ** Two answers in flight

    An accept or decline handler awaits the store twice: once for
    [findById], once for [findByIdAndUpdate]. Each store call is atomic;
    between the two the event loop may run another handler. *)

Module InFlight.









End InFlight.

(** ** A small database for the scenarios

    Alice (1) offers guitar lessons (10) and an archived piano course
    (11); Bob (2) offers Spanish (20) and an archived French course (21);
    Carol (3) has no skills. *)

Module Scenario.

Definition alice : ObjectId := 1%N.
Definition bob : ObjectId := 2%N.
Definition carol : ObjectId := 3%N.

Definition person (uname city : string) : User :=
  {| username := uname; hashedPassword := "$2b$12$"; name := Some uname;
     location := Some city; bio := None |}.

Definition offered_skill (owner : ObjectId) (title cat : string) (active : bool)
    (t : Z) : Skill :=
  {| user := owner; skillName := title; category := cat;
     skillLevel := "Advanced"; timeFrame := None; description := None;
     type := "offered"; isActive := active;
     skill_createdAt := t; skill_updatedAt := t |}.

Definition guitar : ObjectId := 10%N.
Definition piano : ObjectId := 11%N.
Definition spanish : ObjectId := 20%N.
Definition french : ObjectId := 21%N.

Definition catalog : Store :=
  {| users :=
       <[alice := person "alice" "Athens"]>
       (<[bob := person "bob" "Berlin"]>
       (<[carol := person "carol" "Cork"]> ∅));
     skills :=
       <[guitar := offered_skill alice "Guitar" "Music" true 100]>
       (<[piano := offered_skill alice "Piano" "Music" false 110]>
       (<[spanish := offered_skill bob "Spanish" "Languages" true 120]>
       (<[french := offered_skill bob "French" "Languages" false 130]> ∅)));
     swapRequests := ∅ |}.

(** Bob asks Alice for guitar lessons and offers Spanish. *)
Definition ask : SwapRequests.CreateBody :=
  {| SwapRequests.skillRequestedId := Some guitar;
     SwapRequests.skillOfferedId := Some spanish;
     SwapRequests.b_comments := None;
     SwapRequests.b_requestMessage := Some "Trade?" |}.

(** The same trade on the two archived skills. *)
Definition ask_archived : SwapRequests.CreateBody :=
  {| SwapRequests.skillRequestedId := Some piano;
     SwapRequests.skillOfferedId := Some french;
     SwapRequests.b_comments := None;
     SwapRequests.b_requestMessage := None |}.

Definition the_request : ObjectId := 0%N.

Definition pending_request : SwapRequest :=
  SwapRequests.new_request bob alice guitar spanish ask 1000.

Definition accepted_request : SwapRequest :=
  SwapRequests.set_response "accepted" (Some "Sure") 2000 pending_request.

Definition declined_request : SwapRequest :=
  SwapRequests.set_response "declined" (Some "Sorry") 2000 pending_request.

Definition completed_request : SwapRequest :=
  SwapRequests.set_status "completed" 3000 accepted_request.

Definition pending_store : Store := (SwapRequests.create bob ask 1000 catalog).2.

Definition accepted_store : Store :=
  (SwapRequests.accept alice the_request (Some "Sure") 2000 pending_store).2.

Definition declined_store : Store :=
  (SwapRequests.decline alice the_request (Some "Sorry") 2000 pending_store).2.

Definition completed_store : Store :=
  (SwapRequests.updateStatus bob the_request (Some "completed") 3000 accepted_store).2.

(** Bob repeats his request once the first is completed. *)
Definition repeated_store : Store :=
  (SwapRequests.create bob ask 5000 completed_store).2.

(** The ids of the requests a listing returns, in its order. *)
Definition listed_requests (out : Response * Store) : list ObjectId :=
  match body out.1 with
  | RequestsJson docs => v_id <$> docs
  | _ => []
  end.

(** Alice archives her guitar lessons while the swap is under way. *)
Definition archived_store : Store :=
  (Skills.deleteSkill alice guitar 3500 accepted_store).2.

Definition no_filter : Skills.BrowseQuery :=
  Skills.mkBrowseQuery None None None None None.


End Scenario.

(** * The rest of the back end

    The remaining routes of [controllers/skills.js], and
    [controllers/auth.js], [controllers/users.js] and
    [middleware/verify-token.js], on the conventions above. A string
    stands for a JavaScript string code unit by code unit, so its length
    is the one [.length] reads. bcrypt, jsonwebtoken and the messages of
    Mongoose's validation errors are parameters. *)

(** ** More on the stored swap requests *)

(** The [enum] of [status] in [models/swapRequest.js]. *)
Definition statuses : list string :=
  ["pending"; "accepted"; "declined"; "in-progress"; "completed"].

(** The response codes with which a handler reports success. *)
Definition succeeds (r : Response) : Prop := code r = 200 ∨ code r = 201.

(** What holds of every stored request once the engine has created it:
    its status is one the schema lists, its two parties differ, the skill
    it offers belongs to its requester, and while it is pending nothing
    has been written to it since it was created. *)
Record sound_request (st : Store) (r : SwapRequest) : Prop := {
  sound_status : status r ∈ statuses;
  sound_parties : requester r ≠ skillProvider r;
  sound_offer : ∃ o, skills st !! skillOffered r = Some o ∧ user o = requester r;
  sound_pending :
    status r = "pending" → responseMessage r = None ∧ updatedAt r = createdAt r;
}.

Definition sound_requests (st : Store) : Prop :=
  ∀ rid r, swapRequests st !! rid = Some r → sound_request st r.

(** The answer of a route that is not one of the claims' handlers: what
    it sends on success, or the [{ err }] it sends otherwise. *)
Inductive Reply (A : Type) :=
  | Replied (c : Z) (a : A)
  | Failed (c : Z) (err : string).
Arguments Replied {A} c a.
Arguments Failed {A} c err.

Definition reply_code {A} (r : Reply A) : Z :=
  match r with
  | Replied c _ => c
  | Failed c _ => c
  end.

(** ** [controllers/skills.js], the remaining routes *)

Module Catalog.

(** The enums of [models/skill.js]. *)
Definition categories : list string :=
  ["Technology"; "Arts & Crafts"; "Music"; "Languages"; "Sports & Fitness";
   "Cooking"; "Business"; "Writing"; "Photography"; "Gardening";
   "Repair & Maintenance"; "Teaching"; "Health & Wellness"; "Other"].

Definition skillLevels : list string :=
  ["Beginner"; "Intermediate"; "Advanced"; "Expert"].

Definition timeFrames : list string :=
  [""; "1-2 hours"; "3-5 hours"; "1 day"; "2-3 days"; "1 week"; "2+ weeks"; "Ongoing"].

Definition types : list string := ["offered"; "wanted"].

(** The body of [POST /skills] and [PUT /skills/:skillId], as far as it
    names paths of the skill schema; [_id] and the timestamps are the
    store's. *)
Record SkillBody := mkSkillBody {
  sb_user : option ObjectId;
  sb_skillName : option string;
  sb_category : option string;
  sb_skillLevel : option string;
  sb_timeFrame : option string;
  sb_description : option string;
  sb_type : option string;
  sb_isActive : option bool;
}.

(** A [required] string path with an [enum]: present and one of the
    listed values (the empty string, which [required] refuses, is in none
    of these enums). *)
Definition required_in (allowed : list string) (v : option string) : bool :=
  match v with
  | Some s => bool_decide (s ∈ allowed)
  | None => false
  end.

(** The validation [Skill.create] runs: [skillName], [category],
    [skillLevel] and [type] are required, a required string is not empty,
    and a path with an [enum] holds one of its values when it is set. *)
Definition valid_skill (b : SkillBody) : bool :=
  match sb_skillName b with
  | Some n => negb (bool_decide (n = ""))
  | None => false
  end
  && required_in categories (sb_category b)
  && required_in skillLevels (sb_skillLevel b)
  && required_in types (sb_type b)
  && match sb_timeFrame b with
     | Some t => bool_decide (t ∈ timeFrames)
     | None => true
     end.

(** [{ ...req.body, user: req.user._id }] as a skill document: the caller
    replaces whatever [user] the body names, [isActive] defaults to
    [true]. *)
Definition new_skill (caller : ObjectId) (b : SkillBody) (now : Z) : Skill :=
  {| user := caller;
     skillName := default "" (sb_skillName b);
     category := default "" (sb_category b);
     skillLevel := default "" (sb_skillLevel b);
     timeFrame := sb_timeFrame b;
     description := sb_description b;
     type := default "" (sb_type b);
     isActive := default true (sb_isActive b);
     skill_createdAt := now;
     skill_updatedAt := now |}.

Definition insert_skill (sid : ObjectId) (s : Skill) (st : Store) : Store :=
  {| users := users st; skills := <[sid := s]> (skills st);
     swapRequests := swapRequests st |}.

(** The update document [req.body] of [PUT /:skillId]: the paths the body
    names are set, without validation; the others stay. *)
Definition edit (b : SkillBody) (now : Z) (s : Skill) : Skill :=
  {| user := default (user s) (sb_user b);
     skillName := default (skillName s) (sb_skillName b);
     category := default (category s) (sb_category b);
     skillLevel := default (skillLevel s) (sb_skillLevel b);
     timeFrame := match sb_timeFrame b with Some t => Some t | None => timeFrame s end;
     description :=
       match sb_description b with Some d => Some d | None => description s end;
     type := default (type s) (sb_type b);
     isActive := default (isActive s) (sb_isActive b);
     skill_createdAt := skill_createdAt s;
     skill_updatedAt := now |}.

(** [PUT /:skillId] *)
Definition updateSkill (caller sid : ObjectId) (b : SkillBody) (now : Z) (st : Store)
  : Reply (option SkillView) * Store :=
  match findById (skills st) (Some sid) with
  | None => (Failed 404 "Skill not found.", st)
  | Some (_, skill) =>
      if decide (user skill ≠ caller) then
        (Failed 403 "You can only edit your own skills.", st)
      else
        let '(m', doc) := findByIdAndUpdate (skills st) sid (edit b now) in
        let st' := {| users := users st; skills := m';
                      swapRequests := swapRequests st |} in
        (Replied 200 (Skills.populate_owner st' <$> doc), st')
  end.

(** [GET /user/:userId] *)
Definition userSkills (userId : ObjectId) (st : Store) : Reply (list SkillView) * Store :=
  (Replied 200
     (Skills.populate_owner st <$>
        Skills.find_skills (λ s, bool_decide (user s = userId) && isActive s) st),
   st).



Section Parameters.

(** As in [Skills]: MongoDB's case-insensitive [$regex] match and
    JavaScript's [toLowerCase]; and the message Mongoose gives the
    validation error it throws for a body. *)
Variable regex_i : string → string → bool.
Variable toLowerCase : string → string.
Variable validation_message : SkillBody → string.

(** [POST /] *)
Definition createSkill (caller : ObjectId) (b : SkillBody) (now : Z) (st : Store)
  : Reply (option SkillView) * Store :=
  if valid_skill b then
    let sid := fresh (dom (skills st)) in
    let st' := insert_skill sid (new_skill caller b now) st in
    (Replied 201 (Skills.populate_owner st' <$> findById (skills st') (Some sid)), st')
  else (Failed 500 (validation_message b), st).





End Parameters.

End Catalog.

(** ** [middleware/verify-token.js] and [controllers/auth.js] *)

(** What the tokens of this application carry: [{ username, _id }]. *)
Record Payload := mkPayload { p_username : string; p_id : ObjectId }.

Module Auth.

(** The separator of [split(' ')]. *)
Definition space : Ascii.ascii := Ascii.ascii_of_nat 32.

(** [s.split(' ')] *)
Fixpoint split_space (s : string) : list string :=
  match s with
  | EmptyString => [""]
  | String c s' =>
      if decide (c = space) then "" :: split_space s'
      else match split_space s' with
           | w :: ws => String c w :: ws
           | [] => [String c ""]
           end
  end.

(** The string holds no space. *)
Fixpoint spaceless (s : string) : bool :=
  match s with
  | EmptyString => true
  | String c s' => negb (bool_decide (c = space)) && spaceless s'
  end.

(** [User.findOne({ username })] *)
Definition findOne (uname : string) (st : Store) : option (ObjectId * User) :=
  head (filter (λ d, username d.2 = uname) (map_to_list (users st))).


(** The body of [POST /auth/sign-up]; [POST /auth/sign-in] reads the first
    two fields. *)
Record Credentials := mkCredentials {
  cr_username : option string;
  cr_password : option string;
  cr_name : option string;
  cr_location : option string;
}.

Definition saltRounds : nat := 12.

Definition insert_user (uid : ObjectId) (u : User) (st : Store) : Store :=
  {| users := <[uid := u]> (users st); skills := skills st;
     swapRequests := swapRequests st |}.

Section Crypto.

(** [bcrypt.hashSync], [bcrypt.compareSync], [jwt.sign({ payload }, secret)]
    and [jwt.verify(token, secret)] followed by [.payload], [None] when it
    throws. *)
Variable hashSync : string → nat → string.
Variable compareSync : string → string → bool.
Variable sign : Payload → string.
Variable verify : string → option Payload.

(** [verifyToken]: the identity it puts in [req.user] before calling
    [next], or the 401 it sends; [authorization] is the request header. *)
Definition verifyToken (authorization : option string) : Payload + Z * string :=
  match Skills.given authorization with
  | None => inr (401, "No authorization header provided.")
  | Some authHeader =>
      match Skills.given (split_space authHeader !! 1%nat) with
      | None => inr (401, "No token provided.")
      | Some token =>
          match verify token with
          | Some payload => inl payload
          | None => inr (401, "Invalid token.")
          end
      end
  end.

(** [User.create({...})] of the sign-up route. *)
Definition new_user (uname password : string) (b : Credentials) : User :=
  {| username := uname;
     hashedPassword := hashSync password saltRounds;
     name := Some (default "" (Skills.given (cr_name b)));
     location := Some (default "" (Skills.given (cr_location b)));
     bio := None |}.

(** [POST /sign-up]; on success the body is [{ token }]. *)
Definition signUp (b : Credentials) (st : Store) : Reply string * Store :=
  match Skills.given (cr_username b), Skills.given (cr_password b) with
  | Some uname, Some password =>
      if decide (String.length password < 6)%nat then
        (Failed 400 "Password must be at least 6 characters long.", st)
      else
        match findOne uname st with
        | Some _ => (Failed 409 "Username already taken.", st)
        | None =>
            let uid := fresh (dom (users st)) in
            (Replied 201 (sign (mkPayload uname uid)),
             insert_user uid (new_user uname password b) st)
        end
  | _, _ => (Failed 400 "Username and password are required.", st)
  end.

(** [POST /sign-in] *)
Definition signIn (b : Credentials) (st : Store) : Reply string * Store :=
  match Skills.given (cr_username b), Skills.given (cr_password b) with
  | Some uname, Some password =>
      match findOne uname st with
      | None => (Failed 401 "Invalid credentials.", st)
      | Some (uid, u) =>
          if compareSync password (hashedPassword u) then
            (Replied 200 (sign (mkPayload (username u) uid)), st)
          else (Failed 401 "Invalid credentials.", st)
      end
  | _, _ => (Failed 400 "Username and password are required.", st)
  end.

End Crypto.

End Auth.

(** ** [controllers/users.js] *)

Module Users.

(** A user document as it is sent: [toJSON] and the projection
    ['-hashedPassword'] both leave the password hash out. *)
Record PublicUser := mkPublicUser {
  pu_id : ObjectId;
  pu_username : string;
  pu_name : option string;
  pu_location : option string;
  pu_bio : option string;
}.

Definition public (d : ObjectId * User) : PublicUser :=
  {| pu_id := d.1; pu_username := username d.2; pu_name := name d.2;
     pu_location := location d.2; pu_bio := bio d.2 |}.

(** [GET /] *)
Definition allUsers (st : Store) : Reply (list UserSummary) * Store :=
  (Replied 200 (summary <$> map_to_list (users st)), st).


(** The body of [PUT /profile/me]. *)
Record ProfileBody := mkProfileBody {
  pb_name : option string;
  pb_location : option string;
  pb_bio : option string;
}.

(** The update document [{ name, location, bio }]. *)
Definition set_profile (b : ProfileBody) (u : User) : User :=
  {| username := username u;
     hashedPassword := hashedPassword u;
     name := match pb_name b with Some n => Some n | None => name u end;
     location := match pb_location b with Some l => Some l | None => location u end;
     bio := match pb_bio b with Some t => Some t | None => bio u end |}.

(** [PUT /profile/me] *)
Definition updateProfile (caller : ObjectId) (b : ProfileBody) (st : Store)
  : Reply PublicUser * Store :=
  let '(m', doc) := findByIdAndUpdate (users st) caller (set_profile b) in
  match doc with
  | None => (Failed 404 "User not found.", st)
  | Some d =>
      (Replied 200 (public d),
       {| users := m'; skills := skills st; swapRequests := swapRequests st |})
  end.

(** A profile with the user's active skills, split by type. *)
Record Profile := mkProfile {
  pr_user : PublicUser;
  pr_skillsOffered : list (ObjectId * Skill);
  pr_skillsWanted : list (ObjectId * Skill);
}.

(** [GET /profile/:userId]; [GET /public/:userId] sends the same three
    parts with the user's fields spread beside the two lists, and
    [GET /profile/me] is this route at the caller's own id. *)
Definition profile (userId : ObjectId) (st : Store) : Reply Profile * Store :=
  match findById (users st) (Some userId) with
  | None => (Failed 404 "User not found.", st)
  | Some d =>
      let found :=
        filter (λ s, user s.2 = userId ∧ isActive s.2 = true) (map_to_list (skills st)) in
      (Replied 200
         {| pr_user := public d;
            pr_skillsOffered := filter (λ s, type s.2 = "offered") found;
            pr_skillsWanted := filter (λ s, type s.2 = "wanted") found |},
       st)
  end.

End Users.

(** ** More of the scenario *)

Module Scenario2.
Import Scenario.

(** The stand-ins for bcrypt and jsonwebtoken in the scenarios: a hash
    that tags the password, and tokens of which only Dave's is read
    back. *)
Definition hash (password : string) (rounds : nat) : string := "h:" +:+ password.
Definition check (password hashed : string) : bool := bool_decide (hashed = "h:" +:+ password).
Definition token (p : Payload) : string :=
  if bool_decide (p_username p = "dave") && bool_decide (p_id p = 0%N)
  then "jwt.dave" else "jwt.unknown".
Definition read (t : string) : option Payload :=
  if decide (t = "jwt.dave") then Some (mkPayload "dave" 0%N) else None.

Definition dave : Auth.Credentials :=
  Auth.mkCredentials (Some "dave") (Some "secret1") None (Some "Dublin").

Definition empty_store : Store := {| users := ∅; skills := ∅; swapRequests := ∅ |}.

Definition woodwork : Catalog.SkillBody :=
  Catalog.mkSkillBody (Some bob) (Some "Woodwork") (Some "Arts & Crafts")
    (Some "Expert") None None (Some "offered") None.

Definition to_bob : Catalog.SkillBody :=
  Catalog.mkSkillBody (Some bob) None None None None None None None.

Definition reactivate : Catalog.SkillBody :=
  Catalog.mkSkillBody None None None None None None None (Some true).

Definition juggling : Catalog.SkillBody :=
  Catalog.mkSkillBody None (Some "Juggling") (Some "Juggling") (Some "Expert")
    None None (Some "offered") None.

Definition rename : Users.ProfileBody :=
  Users.mkProfileBody (Some "Robert") None None.



(** Bob asks, Alice accepts, Bob starts the swap and archives the Spanish
    course he offered. *)
Definition story : list Request :=
  [PostCreate bob ask 1000;
   PutAccept alice the_request (Some "Sure") 2000;
   PutStatus bob the_request (Some "in-progress") 3000;
   DeleteSkill bob spanish 3500].

Definition started_request : SwapRequest :=
  SwapRequests.set_status "in-progress" 3000 accepted_request.

End Scenario2.

(** * Properties *)

(** ** Store queries *)

Lemma findById_lookup {A} (m : gmap N A) (i : ObjectId) :
  findById m (Some i) = (λ d, (i, d)) <$> m !! i.
Proof. unfold findById. simpl. by destruct (m !! i). Qed.


Lemma findById_None {A} (m : gmap N A) (i : ObjectId) :
  findById m (Some i) = None ↔ m !! i = None.
Proof. rewrite findById_lookup. by destruct (m !! i). Qed.

Lemma findByIdAndUpdate_hit {A} (m : gmap N A) (i : ObjectId) (f : A → A) (d : A) :
  m !! i = Some d →
  findByIdAndUpdate m i f = (alter f i m, Some (i, f d)).
Proof.
  intros Hd. unfold findByIdAndUpdate.
  by rewrite findById_lookup, lookup_alter_eq, Hd.
Qed.

(** ** The update shared by accept, decline and the status route *)

Module SwapRequestsFacts.
Import SwapRequests.

Lemma update_and_send_hit rid f st r :
  swapRequests st !! rid = Some r →
  update_and_send rid f st =
    (mkResponse 200 (RequestJson (Some (populate (updated rid f st) (rid, f r)))),
     updated rid f st).
Proof.
  intros Hr. unfold update_and_send.
  by rewrite (findByIdAndUpdate_hit _ _ _ _ Hr).
Qed.

Lemma updated_lookup rid f st r :
  swapRequests st !! rid = Some r →
  swapRequests (updated rid f st) !! rid = Some (f r).
Proof. intros Hr. simpl. by rewrite lookup_alter_eq, Hr. Qed.

Lemma cannot_start_is_not_invalid : cannot_start_msg ≠ invalid_status_msg.
Proof. discriminate. Qed.

(** What each route answers once the request is found; the case analysis
    every result below starts from. *)
Lemma accept_found_eq st caller rid msg now r :
  swapRequests st !! rid = Some r →
  accept caller rid msg now st =
    if decide (skillProvider r ≠ caller) then
      reject 403 "You can only accept requests sent to you." st
    else if decide (status r ≠ "pending") then
      reject 400 "This request has already been answered." st
    else update_and_send rid (set_response "accepted" msg now) st.
Proof.
  intros Hr. unfold accept.
  rewrite findById_lookup, Hr. simpl. by repeat case_decide.
Qed.

Lemma decline_found_eq st caller rid msg now r :
  swapRequests st !! rid = Some r →
  decline caller rid msg now st =
    if decide (skillProvider r ≠ caller) then
      reject 403 "You can only decline requests sent to you." st
    else if decide (status r ≠ "pending") then
      reject 400 "This request has already been answered." st
    else update_and_send rid (set_response "declined" msg now) st.
Proof.
  intros Hr. unfold decline.
  rewrite findById_lookup, Hr. simpl. by repeat case_decide.
Qed.

Lemma accept_missing st caller rid msg now :
  swapRequests st !! rid = None →
  accept caller rid msg now st = reject 404 "Swap request not found." st.
Proof. intros Hr. unfold accept. by rewrite findById_lookup, Hr. Qed.

Lemma decline_missing st caller rid msg now :
  swapRequests st !! rid = None →
  decline caller rid msg now st = reject 404 "Swap request not found." st.
Proof. intros Hr. unfold decline. by rewrite findById_lookup, Hr. Qed.

Lemma updateStatus_found_eq st caller rid newStatus now r :
  swapRequests st !! rid = Some r →
  updateStatus caller rid newStatus now st =
    if decide (requester r ≠ caller ∧ skillProvider r ≠ caller) then
      reject 403 "You can only update swaps you're part of." st
    else match newStatus with
         | Some s =>
             if decide (s ∉ validStatuses) then reject 400 invalid_status_msg st
             else if decide (status r ≠ "accepted" ∧ s = "in-progress") then
               reject 400 cannot_start_msg st
             else update_and_send rid (set_status s now) st
         | None => reject 400 invalid_status_msg st
         end.
Proof.
  intros Hr. unfold updateStatus.
  rewrite findById_lookup, Hr. simpl. by repeat case_decide.
Qed.

Lemma updateStatus_missing st caller rid newStatus now :
  swapRequests st !! rid = None →
  updateStatus caller rid newStatus now st = reject 404 "Swap request not found." st.
Proof. intros Hr. unfold updateStatus. by rewrite findById_lookup, Hr. Qed.

Lemma validStatuses_spec s :
  s ∈ validStatuses ↔ s = "in-progress" ∨ s = "completed".
Proof.
  unfold validStatuses.
  rewrite !elem_of_cons, elem_of_nil. tauto.
Qed.

Lemma valid_in_progress : "in-progress" ∈ validStatuses.
Proof. apply validStatuses_spec. by left. Qed.

Lemma valid_completed : "completed" ∈ validStatuses.
Proof. apply validStatuses_spec. by right. Qed.

End SwapRequestsFacts.

Import SwapRequests SwapRequestsFacts.

(** ** What a request does to the store *)

Lemma update_and_send_store rid f st :
  (update_and_send rid f st).2 = updated rid f st.
Proof. reflexivity. Qed.

Lemma deleteSkill_found_eq st caller sid now s :
  skills st !! sid = Some s →
  Skills.deleteSkill caller sid now st =
    if decide (user s ≠ caller) then
      reject 403 "You can only delete your own skills." st
    else (mkResponse 200 (Message "Skill deleted successfully."),
          updated_skill sid (Skills.deactivate now) st).
Proof.
  intros Hs. unfold Skills.deleteSkill.
  rewrite findById_lookup, Hs. simpl. by case_decide.
Qed.

Lemma deleteSkill_missing st caller sid now :
  skills st !! sid = None →
  Skills.deleteSkill caller sid now st = reject 404 "Skill not found." st.
Proof. intros Hs. unfold Skills.deleteSkill. by rewrite findById_lookup, Hs. Qed.

(** A request either leaves the store as it was or changes it in one of
    the ways of [changes]. *)
Lemma handle_changes st rq :
  (handle rq st).2 = st ∨ changes st rq (handle rq st).2.
Proof.
  destruct rq as [caller|caller|caller|caller b now|caller rid msg now
                 |caller rid msg now|caller rid newStatus now|caller sid now];
    simpl; try (by left).
  - unfold create.
    destruct (skillRequestedId b) as [i|] eqn:Hi; [|by left].
    destruct (skillOfferedId b) as [j|] eqn:Hj.
    2: { simpl. destruct (skills st !! i); by left. }
    rewrite !findById_lookup.
    destruct (skills st !! i) as [s|] eqn:Hs; [|by left].
    destruct (skills st !! j) as [o|] eqn:Ho; [|by left].
    simpl. repeat case_decide; try (by left).
    right. eapply created; eauto; try (by apply dec_stable).
  - destruct (swapRequests st !! rid) as [r|] eqn:Hr.
    2: { rewrite (accept_missing _ _ _ _ _ Hr). by left. }
    rewrite (accept_found_eq _ _ _ _ _ _ Hr).
    repeat case_decide; try (by left).
    right. rewrite update_and_send_store.
    eapply accepted; eauto; try (by apply dec_stable).
  - destruct (swapRequests st !! rid) as [r|] eqn:Hr.
    2: { rewrite (decline_missing _ _ _ _ _ Hr). by left. }
    rewrite (decline_found_eq _ _ _ _ _ _ Hr).
    repeat case_decide; try (by left).
    right. rewrite update_and_send_store.
    eapply declined; eauto; try (by apply dec_stable).
  - destruct (swapRequests st !! rid) as [r|] eqn:Hr.
    2: { rewrite (updateStatus_missing _ _ _ _ _ Hr). by left. }
    rewrite (updateStatus_found_eq _ _ _ _ _ _ Hr).
    case_decide as Hpart; [by left|].
    destruct newStatus as [s|]; [|by left].
    case_decide as Hvalid; [by left|].
    case_decide as Hguard; [by left|].
    right. rewrite update_and_send_store.
    apply validStatuses_spec in Hvalid.
    eapply advanced; eauto.
    + destruct (decide (requester r = caller)); [by left|].
      destruct (decide (skillProvider r = caller)); [by right|]. tauto.
    + destruct Hvalid as [->| ->]; [|by left].
      right. split; [done|].
      destruct (decide (status r = "accepted")); [done|]. tauto.
  - destruct (skills st !! sid) as [s|] eqn:Hs.
    2: { rewrite (deleteSkill_missing _ _ _ _ Hs). by left. }
    rewrite (deleteSkill_found_eq _ _ _ _ _ Hs).
    case_decide; [by left|].
    right. eapply archived; eauto; try (by apply dec_stable).
Qed.

(** What a change of the store does to one stored request: nothing, or a
    new status, perhaps with a response message, along an edge of the
    state machine. *)
Lemma changes_lookup st rq st' rid r :
  changes st rq st' →
  swapRequests st !! rid = Some r →
  swapRequests st' !! rid = Some r
  ∨ ∃ s msg now,
      swapRequests st' !! rid = Some (set_response s msg now r)
      ∧ ((status r = "pending" ∧ (s = "accepted" ∨ s = "declined"))
         ∨ s = "completed"
         ∨ (s = "in-progress" ∧ status r = "accepted")).
Proof.
  intros Hch Hr. destruct Hch; simpl.
  - left. rewrite lookup_insert_ne; [done|].
    intros Heq. apply (is_fresh (dom (swapRequests st))).
    rewrite Heq. apply elem_of_dom. by exists r.
  - rewrite lookup_alter. case_decide as Heq; [subst|by left].
    right. exists "accepted", msg, now. rewrite Hr.
    assert (r0 = r) as -> by congruence. tauto.
  - rewrite lookup_alter. case_decide as Heq; [subst|by left].
    right. exists "declined", msg, now. rewrite Hr.
    assert (r0 = r) as -> by congruence. tauto.
  - rewrite lookup_alter. case_decide as Heq; [subst|by left].
    right. exists s, None, now. rewrite Hr.
    assert (r0 = r) as -> by congruence. tauto.
  - by left.
Qed.

(** ** The status route *)

(** C3. For a request that resolves and a caller who is its requester or
    its skill provider, the status route asked for ['in-progress'] answers
    200 exactly when the stored status is ['accepted'], and then stores the
    new status; the "can't start" rejection is sent exactly when the new
    status is ['in-progress'] and the stored one is not ['accepted']; asked
    for ['completed'] the route succeeds whatever the stored status. *)
Theorem in_progress_iff_accepted st caller rid r now :
  swapRequests st !! rid = Some r →
  caller = requester r ∨ caller = skillProvider r →
  (code (updateStatus caller rid (Some "in-progress") now st).1 = 200
     ↔ status r = "accepted")
  ∧ (status r = "accepted" →
     updateStatus caller rid (Some "in-progress") now st =
       let st' := updated rid (set_status "in-progress" now) st in
       (mkResponse 200
          (RequestJson (Some (populate st' (rid, set_status "in-progress" now r)))),
        st'))
  ∧ (∀ newStatus,
       updateStatus caller rid newStatus now st = reject 400 cannot_start_msg st
         ↔ newStatus = Some "in-progress" ∧ status r ≠ "accepted")
  ∧ updateStatus caller rid (Some "completed") now st =
      (let st' := updated rid (set_status "completed" now) st in
       (mkResponse 200
          (RequestJson (Some (populate st' (rid, set_status "completed" now r)))),
        st')).
Proof.
  intros Hr Hcaller.
  assert (Hpart : ¬ (requester r ≠ caller ∧ skillProvider r ≠ caller))
    by (intros [? ?]; destruct Hcaller; congruence).
  pose proof valid_in_progress as Hin. pose proof valid_completed as Hco.
  pose proof cannot_start_is_not_invalid as Hmsg.
  split; [|split; [|split]].
  - rewrite (updateStatus_found_eq _ _ _ _ _ _ Hr), decide_False by done.
    rewrite decide_False by tauto.
    destruct (decide (status r = "accepted")) as [Hacc|Hacc].
    + rewrite decide_False by tauto.
      by rewrite (update_and_send_hit _ _ _ _ Hr).
    + rewrite decide_True by tauto. simpl. split; [discriminate | tauto].
  - intros Hacc.
    rewrite (updateStatus_found_eq _ _ _ _ _ _ Hr), decide_False by done.
    rewrite decide_False by tauto. rewrite decide_False by tauto.
    by rewrite (update_and_send_hit _ _ _ _ Hr).
  - intros newStatus.
    rewrite (updateStatus_found_eq _ _ _ _ _ _ Hr), decide_False by done.
    destruct newStatus as [s|].
    + destruct (decide (s ∉ validStatuses)) as [Hs|Hs].
      * split; [intros [= E]; by destruct Hmsg|].
        intros [[= ->] _]. tauto.
      * destruct (decide (status r ≠ "accepted" ∧ s = "in-progress")) as [Hg|Hg].
        -- split; [|done]. intros _. by destruct Hg as [? ->].
        -- rewrite (update_and_send_hit _ _ _ _ Hr).
           split; [discriminate|]. intros [[= ->] ?]. tauto.
    + split; [intros [= E]; by destruct Hmsg | intros [[=] _]].
  - rewrite (updateStatus_found_eq _ _ _ _ _ _ Hr), decide_False by done.
    rewrite decide_False by tauto.
    rewrite decide_False by (intros [_ ?]; discriminate).
    by rewrite (update_and_send_hit _ _ _ _ Hr).
Qed.

(** Bob or Alice may start the accepted swap. *)
Lemma in_progress_iff_accepted_witness :
  code (updateStatus Scenario.bob Scenario.the_request (Some "in-progress") 3000
          Scenario.accepted_store).1 = 200.
Proof.
  apply (in_progress_iff_accepted Scenario.accepted_store Scenario.bob
           Scenario.the_request Scenario.accepted_request 3000).
  - vm_compute. reflexivity.
  - left. reflexivity.
  - reflexivity.
Defined.

(** ** Accept and decline *)

(** [respond] answers as the route of its verdict does. *)
Lemma respond_found_eq st c r :
  swapRequests st !! c_rid c = Some r →
  respond c st =
    if decide (skillProvider r ≠ c_caller c) then
      reject 403
        (match c_verdict c with
         | Accept => "You can only accept requests sent to you."
         | Decline => "You can only decline requests sent to you."
         end) st
    else if decide (status r ≠ "pending") then
      reject 400 "This request has already been answered." st
    else update_and_send (c_rid c) (set_response (answer (c_verdict c)) (c_msg c) (c_now c)) st.
Proof.
  intros Hr. unfold respond.
  destruct (c_verdict c); simpl.
  - by rewrite (accept_found_eq _ _ _ _ _ _ Hr).
  - by rewrite (decline_found_eq _ _ _ _ _ _ Hr).
Qed.

Lemma respond_missing st c :
  swapRequests st !! c_rid c = None →
  respond c st = reject 404 "Swap request not found." st.
Proof.
  intros Hr. unfold respond. destruct (c_verdict c).
  - by apply accept_missing.
  - by apply decline_missing.
Qed.

Lemma answer_not_pending v : answer v ≠ "pending".
Proof. by destruct v. Qed.

(** C4. An accept or decline that answers 200 was sent by the skill
    provider of a request whose status was ['pending']; it leaves the
    status ['accepted'] or ['declined'] according to the route and stores
    the response message it carried; a further accept or decline of the
    same request changes nothing and, coming from the same caller, is
    rejected with "This request has already been answered." *)
Theorem respond_once_from_pending st c resp st' :
  respond c st = (resp, st') →
  code resp = 200 →
  ∃ r r',
    swapRequests st !! c_rid c = Some r
    ∧ c_caller c = skillProvider r
    ∧ status r = "pending"
    ∧ swapRequests st' !! c_rid c = Some r'
    ∧ status r' = answer (c_verdict c)
    ∧ (∀ m, c_msg c = Some m → responseMessage r' = Some m)
    ∧ resp = mkResponse 200 (RequestJson (Some (populate st' (c_rid c, r'))))
    ∧ ∀ c2, c_rid c2 = c_rid c →
        (respond c2 st').2 = st'
        ∧ code (respond c2 st').1 ≠ 200
        ∧ (c_caller c2 = c_caller c →
           respond c2 st' = reject 400 "This request has already been answered." st').
Proof.
  intros Hrun Hok.
  destruct (swapRequests st !! c_rid c) as [r|] eqn:Hr.
  2: { rewrite (respond_missing _ _ Hr) in Hrun.
       injection Hrun as <- <-. discriminate. }
  rewrite (respond_found_eq _ _ _ Hr) in Hrun.
  destruct (decide (skillProvider r ≠ c_caller c)) as [Hp|Hp].
  { injection Hrun as <- <-. discriminate. }
  destruct (decide (status r ≠ "pending")) as [Hs|Hs].
  { injection Hrun as <- <-. discriminate. }
  apply dec_stable in Hp. apply dec_stable in Hs.
  rewrite (update_and_send_hit _ _ _ _ Hr) in Hrun.
  injection Hrun as <- <-.
  set (f := set_response (answer (c_verdict c)) (c_msg c) (c_now c)).
  pose proof (updated_lookup (c_rid c) f st r Hr) as Hr'.
  exists r, (f r).
  do 7 (split; [done || (intros m Hm; simpl; by rewrite Hm)|]).
  intros c2 Hrid.
  assert (Hf : swapRequests (updated (c_rid c) f st) !! c_rid c2 = Some (f r))
    by (by rewrite Hrid).
  rewrite (respond_found_eq _ c2 (f r) Hf).
  assert (Hans : status (f r) ≠ "pending") by apply answer_not_pending.
  split; [|split].
  - by repeat case_decide.
  - by repeat case_decide.
  - intros Hsame. rewrite decide_False by (simpl; rewrite Hsame; tauto).
    by rewrite decide_True.
Qed.

(** Alice accepts Bob's pending request. *)
Lemma respond_once_from_pending_witness :
  ∃ r', swapRequests Scenario.accepted_store !! Scenario.the_request = Some r'
        ∧ status r' = "accepted"
        ∧ responseMessage r' = Some "Sure".
Proof.
  destruct (respond_once_from_pending Scenario.pending_store
              (mkCall Accept Scenario.alice Scenario.the_request (Some "Sure") 2000)
              (respond (mkCall Accept Scenario.alice Scenario.the_request (Some "Sure") 2000)
                 Scenario.pending_store).1
              Scenario.accepted_store)
    as (r & r' & _ & _ & _ & Hr' & Hst & Hmsg & _).
  - vm_compute. reflexivity.
  - vm_compute. reflexivity.
  - exists r'. split; [exact Hr'|]. split; [exact Hst|]. by apply Hmsg.
Defined.

(** C5, as the routes behave. An accept or decline of a request that
    resolves and whose status is not ['pending'] is rejected and leaves the
    store as it was: with 403 when the caller is not the request's skill
    provider, the check made first, and otherwise with the distinct
    "This request has already been answered." error, which is sent with
    status 400. *)
Theorem answered_request_rejected st c r :
  swapRequests st !! c_rid c = Some r →
  status r ≠ "pending" →
  (c_caller c = skillProvider r →
   respond c st = reject 400 "This request has already been answered." st)
  ∧ (c_caller c ≠ skillProvider r →
     code (respond c st).1 = 403 ∧ (respond c st).2 = st).
Proof.
  intros Hr Hs. rewrite (respond_found_eq _ _ _ Hr). split.
  - intros ->. rewrite decide_False by tauto. by rewrite decide_True.
  - intros Hc. by rewrite decide_True by congruence.
Qed.

(** Alice cannot accept the request she has already accepted. *)
Lemma answered_request_rejected_witness :
  accept Scenario.alice Scenario.the_request None 5000 Scenario.accepted_store =
    reject 400 "This request has already been answered." Scenario.accepted_store.
Proof.
  apply (answered_request_rejected Scenario.accepted_store
           (mkCall Accept Scenario.alice Scenario.the_request None 5000)
           Scenario.accepted_request).
  - vm_compute. reflexivity.
  - discriminate.
  - reflexivity.
Defined.

(** C5 as stated fails: on the accepted request, Alice's second accept is
    answered 400 and Carol's decline 403; neither is a 409. *)
Lemma conflict_409_counterexample :
  swapRequests Scenario.accepted_store !! Scenario.the_request
    = Some Scenario.accepted_request
  ∧ status Scenario.accepted_request ≠ "pending"
  ∧ code (accept Scenario.alice Scenario.the_request None 5000
            Scenario.accepted_store).1 = 400
  ∧ code (decline Scenario.carol Scenario.the_request None 5000
            Scenario.accepted_store).1 = 403
  ∧ code (accept Scenario.alice Scenario.the_request None 5000
            Scenario.accepted_store).1 ≠ 409
  ∧ code (decline Scenario.carol Scenario.the_request None 5000
            Scenario.accepted_store).1 ≠ 409.
Proof. vm_compute. repeat split; discriminate. Qed.

(** ** Terminal states *)

Lemma handle_completed st rq rid r :
  swapRequests st !! rid = Some r →
  status r = "completed" →
  ∃ r', swapRequests (handle rq st).2 !! rid = Some r' ∧ status r' = "completed".
Proof.
  intros Hr Hdone.
  destruct (handle_changes st rq) as [-> | Hch]; [by exists r|].
  destruct (changes_lookup _ _ _ _ _ Hch Hr)
    as [Hsame | (s & msg & now & Hnew & Hedge)]; [by exists r|].
  eexists. split; [exact Hnew|]. simpl.
  destruct Hedge as [[? _] | [-> | [_ ?]]]; [congruence | done | congruence].
Qed.

Lemma run_completed trace st rid r :
  swapRequests st !! rid = Some r →
  status r = "completed" →
  ∃ r', swapRequests (run trace st) !! rid = Some r' ∧ status r' = "completed".
Proof.
  revert st r. induction trace as [|rq trace IH]; intros st r Hr Hdone.
  - by exists r.
  - destruct (handle_completed st rq rid r Hr Hdone) as (r1 & Hr1 & Hdone1).
    apply (IH _ r1 Hr1 Hdone1).
Qed.

(** C2, as the routes behave. On a request whose status is ['declined'] or
    ['completed'], accept and decline are rejected and so is every status
    update other than one to ['completed']; all of these leave the store as
    it was. A ['completed'] request keeps that status whatever requests the
    engine serves afterwards. *)
Theorem terminal_request_transitions st rid r :
  swapRequests st !! rid = Some r →
  status r = "declined" ∨ status r = "completed" →
  (∀ c, c_rid c = rid →
     code (respond c st).1 ≠ 200 ∧ (respond c st).2 = st)
  ∧ (∀ caller newStatus now, newStatus ≠ Some "completed" →
       code (updateStatus caller rid newStatus now st).1 ≠ 200
       ∧ (updateStatus caller rid newStatus now st).2 = st)
  ∧ (status r = "completed" →
     ∀ trace, ∃ r', swapRequests (run trace st) !! rid = Some r'
                    ∧ status r' = "completed").
Proof.
  intros Hr Hterm.
  assert (Hnp : status r ≠ "pending") by (destruct Hterm as [-> | ->]; discriminate).
  assert (Hna : status r ≠ "accepted") by (destruct Hterm as [-> | ->]; discriminate).
  split; [|split].
  - intros c <-. rewrite (respond_found_eq _ _ _ Hr).
    by repeat case_decide.
  - intros caller newStatus now Hnew.
    rewrite (updateStatus_found_eq _ _ _ _ _ _ Hr).
    case_decide; [done|].
    destruct newStatus as [s|]; [|done].
    case_decide as Hvalid; [done|].
    apply validStatuses_spec in Hvalid as [-> | ->]; [|done].
    by rewrite decide_True.
  - intros Hdone trace. by apply (run_completed trace st rid r).
Qed.

(** Alice's declined request cannot be accepted afterwards. *)
Lemma terminal_request_transitions_witness :
  code (accept Scenario.alice Scenario.the_request None 5000
          Scenario.declined_store).1 ≠ 200.
Proof.
  apply (terminal_request_transitions Scenario.declined_store Scenario.the_request
           Scenario.declined_request)
    with (c := mkCall Accept Scenario.alice Scenario.the_request None 5000).
  - vm_compute. reflexivity.
  - left. reflexivity.
  - reflexivity.
Defined.

(** C2 as stated fails: Bob's status update to ['completed'] on the request
    Alice declined is answered 200 and moves it to ['completed']. *)
Lemma declined_then_completed_counterexample :
  swapRequests Scenario.declined_store !! Scenario.the_request
    = Some Scenario.declined_request
  ∧ status Scenario.declined_request = "declined"
  ∧ code (updateStatus Scenario.bob Scenario.the_request (Some "completed") 3000
            Scenario.declined_store).1 = 200
  ∧ status <$> swapRequests
                 (updateStatus Scenario.bob Scenario.the_request (Some "completed")
                    3000 Scenario.declined_store).2 !! Scenario.the_request
    = Some "completed".
Proof. vm_compute. repeat split. Qed.

(** ** Creation *)

Lemma create_resolved st caller b now reqId s offId o :
  findById (skills st) (skillRequestedId b) = Some (reqId, s) →
  findById (skills st) (skillOfferedId b) = Some (offId, o) →
  create caller b now st =
    if decide (user s = caller) then
      reject 400 "Cannot create swap request with yourself." st
    else if decide (user o ≠ caller) then
      reject 403 "You can only offer skills you own." st
    else
      let rid := fresh (dom (swapRequests st)) in
      let st' := insert_request rid (new_request caller (user s) reqId offId b now) st in
      (mkResponse 201
         (RequestJson (populate st' <$> findById (swapRequests st') (Some rid))),
       st').
Proof. intros Hs Ho. unfold create. by rewrite Hs, Ho. Qed.

Lemma fresh_request_id st : swapRequests st !! fresh (dom (swapRequests st)) = None.
Proof. apply not_elem_of_dom, is_fresh. Qed.




(** C10. [POST /] never reads [isActive]: whenever both skills resolve, the
    caller owns the offered one and not the requested one, the request is
    created with status ['pending'], whatever the [isActive] flag of either
    skill; in particular when one or both are soft-deleted. *)
Theorem create_ignores_isActive st caller b now reqId s offId o :
  findById (skills st) (skillRequestedId b) = Some (reqId, s) →
  findById (skills st) (skillOfferedId b) = Some (offId, o) →
  user s ≠ caller →
  user o = caller →
  code (create caller b now st).1 = 201
  ∧ ∃ rid r,
      swapRequests st !! rid = None
      ∧ swapRequests (create caller b now st).2 !! rid = Some r
      ∧ status r = "pending"
      ∧ requester r = caller
      ∧ skillProvider r = user s
      ∧ skillRequested r = reqId
      ∧ skillOffered r = offId.
Proof.
  intros Hs Ho Hother Hown.
  rewrite (create_resolved _ _ _ _ _ _ _ _ Hs Ho).
  rewrite decide_False by done. rewrite decide_False by tauto.
  split; [done|].
  eexists _, _. split; [apply fresh_request_id|].
  split; [apply lookup_insert_eq|]. done.
Qed.

(** Bob trades his archived French course for Alice's archived piano
    course. *)
Lemma create_ignores_isActive_witness :
  isActive (Scenario.offered_skill Scenario.alice "Piano" "Music" false 110) = false
  ∧ isActive (Scenario.offered_skill Scenario.bob "French" "Languages" false 130) = false
  ∧ code (create Scenario.bob Scenario.ask_archived 1000 Scenario.catalog).1 = 201.
Proof.
  split; [reflexivity|]. split; [reflexivity|].
  apply (create_ignores_isActive Scenario.catalog Scenario.bob Scenario.ask_archived 1000
           Scenario.piano
           (Scenario.offered_skill Scenario.alice "Piano" "Music" false 110)
           Scenario.french
           (Scenario.offered_skill Scenario.bob "French" "Languages" false 130)).
  - vm_compute. reflexivity.
  - vm_compute. reflexivity.
  - discriminate.
  - reflexivity.
Defined.

(** ** The provider invariant *)



(** A change of the store keeps every skill and its owner. *)
Lemma changes_owner st rq st' sid s :
  changes st rq st' →
  skills st !! sid = Some s →
  ∃ s', skills st' !! sid = Some s' ∧ user s' = user s.
Proof.
  intros Hch Hs. destruct Hch; simpl; try (by exists s).
  rewrite lookup_alter. case_decide; [subst|by exists s].
  rewrite Hs. by eexists.
Qed.








(** ** The three listings *)

#[local] Instance newest_first_transitive : Transitive newest_first.
Proof. intros a b c. unfold newest_first. lia. Qed.

#[local] Instance newest_first_total : Total newest_first.
Proof. intros a b. unfold newest_first. lia. Qed.

Section Listing.
Context (P : SwapRequest → Prop) `{∀ r, Decision (P r)} (st : Store).

Lemma elem_of_find_requests v :
  v ∈ find_requests P st ↔
  ∃ rid r, swapRequests st !! rid = Some r ∧ P r ∧ v = populate st (rid, r).
Proof.
  unfold find_requests. rewrite list_elem_of_fmap. split.
  - intros ([rid r] & -> & Hin).
    rewrite merge_sort_Permutation in Hin.
    apply list_elem_of_filter in Hin as [HP Hin].
    apply elem_of_map_to_list in Hin. by exists rid, r.
  - intros (rid & r & Hr & HP & ->). exists (rid, r). split; [done|].
    rewrite merge_sort_Permutation. apply list_elem_of_filter.
    split; [done|]. by apply elem_of_map_to_list.
Qed.

Lemma find_requests_NoDup : NoDup (v_id <$> find_requests P st).
Proof.
  unfold find_requests. rewrite <- list_fmap_compose.
  change (v_id ∘ populate st) with (@fst ObjectId SwapRequest).
  rewrite merge_sort_Permutation.
  eapply sublist_NoDup; [apply (NoDup_fst_map_to_list (swapRequests st))|].
  apply fmap_sublist, sublist_filter.
Qed.

Lemma find_requests_sorted :
  StronglySorted newest_view_first (find_requests P st).
Proof.
  unfold find_requests.
  apply (StronglySorted_fmap _ newest_first); [done|].
  apply StronglySorted_merge_sort; apply _.
Qed.
End Listing.

(** C7. The requests [GET /received] returns for a user together with
    those [GET /sent] returns are exactly those [GET /] returns; each
    stored request occurs at most once in each listing, so [GET /] shows a
    request its user both sent and received once; each listing is the
    stored requests that match its filter, populated and ordered newest
    created first; and each leaves the store as it was. *)
Theorem listings_agree st u :
  ∃ all received sent,
    listAll u st = (mkResponse 200 (RequestsJson all), st)
    ∧ listReceived u st = (mkResponse 200 (RequestsJson received), st)
    ∧ listSent u st = (mkResponse 200 (RequestsJson sent), st)
    ∧ (∀ v, v ∈ all ↔ v ∈ received ∨ v ∈ sent)
    ∧ (∀ v, v ∈ received ↔
         ∃ rid r, swapRequests st !! rid = Some r ∧ skillProvider r = u
                  ∧ v = populate st (rid, r))
    ∧ (∀ v, v ∈ sent ↔
         ∃ rid r, swapRequests st !! rid = Some r ∧ requester r = u
                  ∧ v = populate st (rid, r))
    ∧ NoDup (v_id <$> all)
    ∧ NoDup (v_id <$> received)
    ∧ NoDup (v_id <$> sent)
    ∧ StronglySorted newest_view_first all
    ∧ StronglySorted newest_view_first received
    ∧ StronglySorted newest_view_first sent.
Proof.
  eexists _, _, _.
  do 3 (split; [reflexivity|]).
  split; [|split; [apply elem_of_find_requests|split; [apply elem_of_find_requests|]]].
  - intros v. rewrite !elem_of_find_requests. split.
    + intros (rid & r & Hr & [Hq | Hp] & ->); [right | left]; by exists rid, r.
    + intros [(rid & r & Hr & Hp & ->) | (rid & r & Hr & Hq & ->)];
        exists rid, r; tauto.
  - repeat split; first [apply find_requests_NoDup | apply find_requests_sorted].
Qed.

(** ** Soft delete *)

Module SkillsFacts.
Import Skills.

Lemma elem_of_find_skills keep st d :
  d ∈ find_skills keep st ↔ keep d.2 = true ∧ skills st !! d.1 = Some d.2.
Proof.
  unfold find_skills. rewrite merge_sort_Permutation, list_elem_of_filter.
  destruct d as [sid s]. by rewrite elem_of_map_to_list.
Qed.

(** A listing built on a filter that asks for [isActive: true] holds
    active skills only. *)
Lemma find_skills_active keep st d :
  (∀ s, keep s = true → isActive s = true) →
  d ∈ find_skills keep st →
  skills st !! d.1 = Some d.2 ∧ isActive d.2 = true.
Proof. intros Hkeep [Hk Hd]%elem_of_find_skills. auto. Qed.

Section Catalog.
Variable regex_i : string → string → bool.
Variable toLowerCase : string → string.

Lemma filter_by_location_subset loc vs vs' v :
  filter_by_location toLowerCase loc vs = Some vs' → v ∈ vs' → v ∈ vs.
Proof.
  revert vs'. induction vs as [|w vs IH]; intros vs'; simpl.
  - intros [= <-]. done.
  - destruct (sv_user w) as [u|]; [|discriminate]. simpl.
    destruct (filter_by_location toLowerCase loc vs) as [rest|]; [|discriminate].
    simpl. intros [= <-].
    destruct (lives_in toLowerCase loc u).
    + rewrite !elem_of_cons. intros [-> | Hin]; [by left|right; by apply (IH rest)].
    + intros Hin. apply elem_of_cons. right. by apply (IH rest).
Qed.

Lemma by_location_subset q vs vs' v :
  by_location toLowerCase q vs = Some vs' → v ∈ vs' → v ∈ vs.
Proof.
  unfold by_location. destruct (given q).
  - apply filter_by_location_subset.
  - by intros [= <-].
Qed.

Lemma browse_filter_active q s :
  browse_filter regex_i q s = true → isActive s = true.
Proof. unfold browse_filter. rewrite !andb_true_iff. tauto. Qed.

Lemma search_filter_active q s :
  search_filter regex_i q s = true → isActive s = true.
Proof. unfold search_filter. rewrite !andb_true_iff. tauto. Qed.

(** Whatever the filters, what a catalog listing shows is an active
    skill of the store. *)
Lemma listed_view_active keep st q vs v :
  (∀ s, keep s = true → isActive s = true) →
  by_location toLowerCase q (populate_owner st <$> find_skills keep st) = Some vs →
  v ∈ vs →
  skills st !! sv_id v = Some (sv_skill v) ∧ isActive (sv_skill v) = true.
Proof.
  intros Hkeep Hloc Hin.
  apply (by_location_subset _ _ _ _ Hloc) in Hin.
  apply list_elem_of_fmap in Hin as (d & -> & Hd).
  by apply (find_skills_active keep).
Qed.

Lemma browse_lists_active q st sid :
  sid ∈ listed_ids (body (browse regex_i toLowerCase q st).1) →
  ∃ s, skills st !! sid = Some s ∧ isActive s = true.
Proof.
  unfold browse.
  destruct (by_location _ _ _) as [vs|] eqn:Hloc; simpl; [|by intros Hin; apply elem_of_nil in Hin].
  intros (v & -> & Hin)%list_elem_of_fmap.
  exists (sv_skill v).
  eapply listed_view_active; [apply browse_filter_active|done..].
Qed.

Lemma search_lists_active q st sid :
  sid ∈ listed_ids (body (search regex_i toLowerCase q st).1) →
  ∃ s, skills st !! sid = Some s ∧ isActive s = true.
Proof.
  unfold search.
  destruct (by_location _ _ _) as [vs|] eqn:Hloc; simpl; [|by intros Hin; apply elem_of_nil in Hin].
  rewrite elem_of_app, !list_elem_of_fmap.
  intros [(v & -> & Hin) | (v & -> & Hin)];
    apply list_elem_of_filter in Hin as [_ Hin];
    exists (sv_skill v);
    (eapply listed_view_active; [apply search_filter_active|done..]).
Qed.
End Catalog.

Lemma mySkills_lists_active u st sid :
  sid ∈ listed_ids (body (mySkills u st).1) →
  ∃ s, skills st !! sid = Some s ∧ isActive s = true.
Proof.
  simpl. intros ([i s] & -> & Hin)%list_elem_of_fmap.
  exists s. apply (find_skills_active _ _ (i, s)) in Hin; [done|].
  intros s'. rewrite andb_true_iff. tauto.
Qed.

End SkillsFacts.

(** C8. A soft delete by the owner answers 200 and keeps the skill's record,
    with [isActive] set to [false]. In the store it leaves, the skill is in
    no result of the catalog's browse, search or my-skills routes, whatever
    their filters and caller; no swap request is touched, and a request
    that refers to the skill still populates it as the whole document. *)
Theorem soft_delete_hides_but_keeps
    (regex_i : string → string → bool) (toLowerCase : string → string)
    st caller sid now s :
  skills st !! sid = Some s →
  user s = caller →
  let st' := (Skills.deleteSkill caller sid now st).2 in
  (Skills.deleteSkill caller sid now st).1
    = mkResponse 200 (Message "Skill deleted successfully.")
  ∧ skills st' !! sid = Some (Skills.deactivate now s)
  ∧ isActive (Skills.deactivate now s) = false
  ∧ (∀ q, sid ∉ Skills.listed_ids (body (Skills.browse regex_i toLowerCase q st').1))
  ∧ (∀ q, sid ∉ Skills.listed_ids (body (Skills.search regex_i toLowerCase q st').1))
  ∧ (∀ u, sid ∉ Skills.listed_ids (body (Skills.mySkills u st').1))
  ∧ swapRequests st' = swapRequests st
  ∧ ∀ rid r, swapRequests st' !! rid = Some r →
      (skillRequested r = sid →
       v_skillRequested (populate st' (rid, r)) = Some (sid, Skills.deactivate now s))
      ∧ (skillOffered r = sid →
         v_skillOffered (populate st' (rid, r)) = Some (sid, Skills.deactivate now s)).
Proof.
  intros Hs Hown st'. subst st'.
  rewrite (deleteSkill_found_eq _ _ _ _ _ Hs).
  rewrite decide_False by tauto. simpl.
  assert (Hs' : alter (Skills.deactivate now) sid (skills st) !! sid
                = Some (Skills.deactivate now s))
    by (by rewrite lookup_alter_eq, Hs).
  assert (Hhidden : ∀ s', skills (updated_skill sid (Skills.deactivate now) st) !! sid
                          = Some s' → isActive s' = true → False).
  { simpl. intros s' Hl Hact. rewrite Hs' in Hl. by injection Hl as <-. }
  do 3 (split; [done|]).
  split; [|split; [|split; [|split; [done|]]]].
  - intros q (s' & ? & ?)%SkillsFacts.browse_lists_active. eauto.
  - intros q (s' & ? & ?)%SkillsFacts.search_lists_active. eauto.
  - intros u (s' & ? & ?)%SkillsFacts.mySkills_lists_active. eauto.
  - intros rid r Hr. unfold populate, populate_skill. simpl.
    unfold findById. simpl. split; intros ->; by rewrite Hs'.
Qed.

(** Alice's guitar lessons leave the catalog and stay in Bob's request. *)
Lemma soft_delete_hides_but_keeps_witness :
  (Scenario.guitar ∉
     Skills.listed_ids
       (body (Skills.browse (λ _ _, true) (λ s, s) Scenario.no_filter
                Scenario.archived_store).1))
  ∧ v_skillRequested
      (populate Scenario.archived_store (Scenario.the_request, Scenario.accepted_request))
    = Some (Scenario.guitar,
            Skills.deactivate 3500
              (Scenario.offered_skill Scenario.alice "Guitar" "Music" true 100)).
Proof.
  destruct (soft_delete_hides_but_keeps (λ _ _, true) (λ s, s)
              Scenario.accepted_store Scenario.alice Scenario.guitar 3500
              (Scenario.offered_skill Scenario.alice "Guitar" "Music" true 100))
    as (_ & _ & _ & Hbrowse & _ & _ & _ & Hview).
  - vm_compute. reflexivity.
  - reflexivity.
  - split; [apply Hbrowse|].
    apply (Hview Scenario.the_request Scenario.accepted_request).
    + vm_compute. reflexivity.
    + reflexivity.
Defined.

(** ** Two answers to one request *)

Import InFlight.















(** ** The scenarios of the specification *)

(** Bob asks (201, pending, provider Alice); Alice accepts; the swap is
    started and completed; a second accept is then turned away with 400. *)
Example lifecycle :
  code (create Scenario.bob Scenario.ask 1000 Scenario.catalog).1 = 201
  ∧ swapRequests Scenario.pending_store !! Scenario.the_request
    = Some Scenario.pending_request
  ∧ skillProvider Scenario.pending_request = Scenario.alice
  ∧ code (accept Scenario.alice Scenario.the_request (Some "Sure") 2000
            Scenario.pending_store).1 = 200
  ∧ swapRequests Scenario.accepted_store !! Scenario.the_request
    = Some Scenario.accepted_request
  ∧ code (updateStatus Scenario.bob Scenario.the_request (Some "in-progress") 2500
            Scenario.accepted_store).1 = 200
  ∧ code (updateStatus Scenario.alice Scenario.the_request (Some "completed") 3000
            (updateStatus Scenario.bob Scenario.the_request (Some "in-progress") 2500
               Scenario.accepted_store).2).1 = 200
  ∧ accept Scenario.alice Scenario.the_request None 4000 Scenario.completed_store
    = reject 400 "This request has already been answered." Scenario.completed_store.
Proof. vm_compute. repeat split. Qed.

(** Alice asking for her own guitar lessons is turned away with 400. *)
Example self_swap :
  create Scenario.alice Scenario.ask 1000 Scenario.catalog
  = reject 400 "Cannot create swap request with yourself." Scenario.catalog.
Proof. reflexivity. Qed.

(** Bob's two requests are listed newest first, in his outbox and in
    Alice's inbox; each sees them once in the combined listing. *)
Example listings_of_a_repeated_request :
  swapRequests Scenario.completed_store !! Scenario.the_request
    = Some Scenario.completed_request
  ∧ Scenario.listed_requests (listAll Scenario.bob Scenario.repeated_store) = [1%N; 0%N]
  ∧ Scenario.listed_requests (listSent Scenario.bob Scenario.repeated_store) = [1%N; 0%N]
  ∧ Scenario.listed_requests (listReceived Scenario.bob Scenario.repeated_store) = []
  ∧ Scenario.listed_requests (listAll Scenario.alice Scenario.repeated_store) = [1%N; 0%N]
  ∧ Scenario.listed_requests (listReceived Scenario.alice Scenario.repeated_store)
    = [1%N; 0%N]
  ∧ Scenario.listed_requests (listAll Scenario.carol Scenario.repeated_store) = [].
Proof. vm_compute. repeat split. Qed.

(** * Properties of the rest of the back end *)

(** ** Failures write nothing *)

Lemma update_and_send_code rid f st : code (update_and_send rid f st).1 = 200.
Proof. reflexivity. Qed.

(** X1. A request the engine answers with anything but 200 or 201 leaves
    the store exactly as it was: every rejection is sent before the
    handler's first write. *)
Theorem failure_writes_nothing st rq :
  ¬ succeeds (handle rq st).1 → (handle rq st).2 = st.
Proof.
  unfold succeeds. intros Hfail.
  destruct rq as [caller|caller|caller|caller b now|caller rid msg now
                 |caller rid msg now|caller rid newStatus now|caller sid now];
    simpl in *; try done.
  - unfold create in *.
    destruct (findById (skills st) (skillRequestedId b)) as [[reqId s]|]; [|done].
    destruct (findById (skills st) (skillOfferedId b)) as [[offId o]|]; [|done].
    repeat case_decide; try done. simpl in Hfail. tauto.
  - destruct (swapRequests st !! rid) as [r|] eqn:Hr.
    2: { by rewrite (accept_missing _ _ _ _ _ Hr). }
    rewrite (accept_found_eq _ _ _ _ _ _ Hr) in Hfail |- *.
    repeat case_decide; try done.
    rewrite update_and_send_code in Hfail. tauto.
  - destruct (swapRequests st !! rid) as [r|] eqn:Hr.
    2: { by rewrite (decline_missing _ _ _ _ _ Hr). }
    rewrite (decline_found_eq _ _ _ _ _ _ Hr) in Hfail |- *.
    repeat case_decide; try done.
    rewrite update_and_send_code in Hfail. tauto.
  - destruct (swapRequests st !! rid) as [r|] eqn:Hr.
    2: { by rewrite (updateStatus_missing _ _ _ _ _ Hr). }
    rewrite (updateStatus_found_eq _ _ _ _ _ _ Hr) in Hfail |- *.
    case_decide; [done|]. destruct newStatus as [s|]; [|done].
    repeat case_decide; try done.
    rewrite update_and_send_code in Hfail. tauto.
  - destruct (skills st !! sid) as [s|] eqn:Hs.
    2: { by rewrite (deleteSkill_missing _ _ _ _ Hs). }
    rewrite (deleteSkill_found_eq _ _ _ _ _ Hs) in Hfail |- *.
    case_decide; [done|]. simpl in Hfail. tauto.
Qed.

(** Carol, who owns nothing, cannot offer Bob's Spanish. *)
Lemma failure_writes_nothing_witness :
  (handle (PostCreate Scenario.carol Scenario.ask 1000) Scenario.catalog).2
  = Scenario.catalog.
Proof.
  apply failure_writes_nothing.
  vm_compute. intros [H | H]; discriminate H.
Defined.

(** ** What every stored request satisfies *)

(** Where a request found after a change of the store comes from: it was
    there unchanged, or it was there and has moved along an edge of the
    state machine, or it has just been created. *)
Lemma changes_source st rq st' rid r' :
  changes st rq st' →
  swapRequests st' !! rid = Some r' →
  swapRequests st !! rid = Some r'
  ∨ (∃ r s msg now,
       swapRequests st !! rid = Some r
       ∧ r' = set_response s msg now r
       ∧ ((status r = "pending" ∧ (s = "accepted" ∨ s = "declined"))
          ∨ s = "completed"
          ∨ (s = "in-progress" ∧ status r = "accepted")))
  ∨ (∃ caller b now reqId offId sk o,
       r' = new_request caller (user sk) reqId offId b now
       ∧ skills st !! offId = Some o
       ∧ user sk ≠ caller
       ∧ user o = caller).
Proof.
  intros Hch Hr'.
  destruct Hch as [caller b now reqId offId s o _ _ Hs Ho Hne Hown
                  |caller rid0 msg now r Hr Hp Hst
                  |caller rid0 msg now r Hr Hp Hst
                  |caller rid0 s now r Hr Hpart Hedge
                  |caller sid now s _ _]; simpl in Hr'.
  - rewrite lookup_insert in Hr'. case_decide; [|by left].
    injection Hr' as <-. right. right. by exists caller, b, now, reqId, offId, s, o.
  - rewrite lookup_alter in Hr'. case_decide; [subst|by left].
    rewrite Hr in Hr'. injection Hr' as <-.
    right. left. exists r, "accepted", msg, now. tauto.
  - rewrite lookup_alter in Hr'. case_decide; [subst|by left].
    rewrite Hr in Hr'. injection Hr' as <-.
    right. left. exists r, "declined", msg, now. tauto.
  - rewrite lookup_alter in Hr'. case_decide; [subst|by left].
    rewrite Hr in Hr'. injection Hr' as <-.
    right. left. exists r, s, None, now. tauto.
  - by left.
Qed.

Lemma statuses_spec s :
  s ∈ statuses ↔
  s = "pending" ∨ s = "accepted" ∨ s = "declined" ∨ s = "in-progress" ∨ s = "completed".
Proof. unfold statuses. rewrite !elem_of_cons, elem_of_nil. tauto. Qed.

Lemma changes_sound st rq st' :
  changes st rq st' → sound_requests st → sound_requests st'.
Proof.
  intros Hch Hinv rid r' Hr'.
  assert (Howner : ∀ sid o, skills st !! sid = Some o →
            ∃ o', skills st' !! sid = Some o' ∧ user o' = user o)
    by (intros; by eapply changes_owner).
  destruct (changes_source _ _ _ _ _ Hch Hr')
    as [Hold | [(r & s & msg & now & Hr & -> & Hedge)
               | (caller & b & now & reqId & offId & sk & o & -> & Ho & Hne & Hown)]].
  - destruct (Hinv rid r' Hold) as [H1 H2 (o & Ho & Hu) H4].
    destruct (Howner _ _ Ho) as (o' & Ho' & Hu').
    split; [done..| |done]. exists o'. split; congruence.
  - destruct (Hinv rid r Hr) as [H1 H2 (o & Ho & Hu) H4].
    destruct (Howner _ _ Ho) as (o' & Ho' & Hu').
    split; simpl.
    + apply statuses_spec. revert Hedge. clear.
      intros [[_ [-> | ->]] | [-> | [-> _]]]; tauto.
    + done.
    + exists o'. split; congruence.
    + intros ->. destruct Hedge as [[_ [?|?]] | [? | [? _]]]; discriminate.
  - destruct (Howner _ _ Ho) as (o' & Ho' & Hu').
    split; simpl.
    + apply statuses_spec. by left.
    + congruence.
    + exists o'. split; congruence.
    + done.
Qed.

Lemma run_sound trace st : sound_requests st → sound_requests (run trace st).
Proof.
  revert st. induction trace as [|rq trace IH]; intros st Hinv; [done|].
  simpl. apply IH.
  destruct (handle_changes st rq) as [-> | Hch]; [done|].
  by eapply changes_sound.
Qed.

Lemma run_sound_from_empty trace st rid r :
  swapRequests st = ∅ →
  swapRequests (run trace st) !! rid = Some r →
  sound_request (run trace st) r.
Proof.
  intros Hempty Hr. eapply (run_sound trace st); [|exact Hr].
  intros i x Hx. rewrite Hempty in Hx. by rewrite lookup_empty in Hx.
Qed.

(** X2. Whatever requests the engine has served to a database that started
    without swap requests, the status of every stored request is one of the
    five values of the schema's enum, although the updates run without
    validation. *)
Theorem stored_status_in_enum st trace rid r :
  swapRequests st = ∅ →
  swapRequests (run trace st) !! rid = Some r →
  status r ∈ statuses.
Proof. intros Hempty Hr. by destruct (run_sound_from_empty _ _ _ _ Hempty Hr). Qed.

(** The started swap of the story. *)
Lemma stored_status_in_enum_witness : status Scenario2.started_request ∈ statuses.
Proof.
  apply (stored_status_in_enum Scenario.catalog Scenario2.story Scenario.the_request
           Scenario2.started_request).
  - reflexivity.
  - vm_compute. reflexivity.
Defined.

(** X3. In such a database the requester of a stored request is never its
    skill provider, so an accept or decline sent by the requester is
    answered 403 and changes nothing. *)
Theorem requester_cannot_answer st trace c r :
  swapRequests st = ∅ →
  swapRequests (run trace st) !! c_rid c = Some r →
  requester r ≠ skillProvider r
  ∧ (c_caller c = requester r →
     code (respond c (run trace st)).1 = 403
     ∧ (respond c (run trace st)).2 = run trace st).
Proof.
  intros Hempty Hr.
  destruct (run_sound_from_empty _ _ _ _ Hempty Hr) as [_ Hparties _ _].
  split; [done|]. intros Hc.
  rewrite (respond_found_eq _ _ _ Hr).
  by rewrite decide_True by congruence.
Qed.

(** Bob cannot accept his own request. *)
Lemma requester_cannot_answer_witness :
  code (accept Scenario.bob Scenario.the_request None 1500
          (run [PostCreate Scenario.bob Scenario.ask 1000] Scenario.catalog)).1 = 403.
Proof.
  apply (requester_cannot_answer Scenario.catalog
           [PostCreate Scenario.bob Scenario.ask 1000]
           (mkCall Accept Scenario.bob Scenario.the_request None 1500)
           Scenario.pending_request).
  - reflexivity.
  - vm_compute. reflexivity.
  - reflexivity.
Defined.



(** X5. In such a database a request whose status is ['pending'] has not
    been written to since it was created: it carries no response message
    and its update time is its creation time. *)
Theorem pending_is_untouched st trace rid r :
  swapRequests st = ∅ →
  swapRequests (run trace st) !! rid = Some r →
  status r = "pending" →
  responseMessage r = None ∧ updatedAt r = createdAt r.
Proof.
  intros Hempty Hr. by destruct (run_sound_from_empty _ _ _ _ Hempty Hr).
Qed.

Lemma pending_is_untouched_witness :
  responseMessage Scenario.pending_request = None
  ∧ updatedAt Scenario.pending_request = createdAt Scenario.pending_request.
Proof.
  apply (pending_is_untouched Scenario.catalog
           [PostCreate Scenario.bob Scenario.ask 1000; GetAll Scenario.alice]
           Scenario.the_request Scenario.pending_request).
  - reflexivity.
  - vm_compute. reflexivity.
  - reflexivity.
Defined.

(** ** Creation again *)

Lemma create_ok_inv st caller b now :
  code (create caller b now st).1 = 201 →
  ∃ reqId s offId o,
    findById (skills st) (skillRequestedId b) = Some (reqId, s)
    ∧ findById (skills st) (skillOfferedId b) = Some (offId, o)
    ∧ user s ≠ caller
    ∧ user o = caller
    ∧ (create caller b now st).2 =
        insert_request (fresh (dom (swapRequests st)))
          (new_request caller (user s) reqId offId b now) st.
Proof.
  intros Hok.
  destruct (findById (skills st) (skillRequestedId b)) as [[reqId s]|] eqn:Hs.
  2: { unfold create in Hok. rewrite Hs in Hok. discriminate. }
  destruct (findById (skills st) (skillOfferedId b)) as [[offId o]|] eqn:Ho.
  2: { unfold create in Hok. rewrite Hs, Ho in Hok. discriminate. }
  rewrite (create_resolved _ _ _ _ _ _ _ _ Hs Ho) in Hok |- *.
  repeat case_decide; try discriminate.
  by exists reqId, s, offId, o.
Qed.

(** X6. [POST /] does not look for an earlier request of the same content:
    sent again after it has succeeded, the same body from the same caller
    succeeds again. The two calls add two requests under different ids,
    with the same four references, and leave every request that was
    stored before as it was. *)
Theorem create_is_not_deduplicated st caller b now now' :
  code (create caller b now st).1 = 201 →
  let st1 := (create caller b now st).2 in
  let st2 := (create caller b now' st1).2 in
  code (create caller b now' st1).1 = 201
  ∧ size (swapRequests st2) = S (S (size (swapRequests st)))
  ∧ (∀ rid r, swapRequests st !! rid = Some r → swapRequests st2 !! rid = Some r)
  ∧ ∃ rid1 rid2 r1 r2,
      rid1 ≠ rid2
      ∧ swapRequests st !! rid1 = None
      ∧ swapRequests st !! rid2 = None
      ∧ swapRequests st2 !! rid1 = Some r1
      ∧ swapRequests st2 !! rid2 = Some r2
      ∧ requester r1 = requester r2
      ∧ skillProvider r1 = skillProvider r2
      ∧ skillRequested r1 = skillRequested r2
      ∧ skillOffered r1 = skillOffered r2.
Proof.
  intros Hok st1 st2. subst st1 st2.
  destruct (create_ok_inv _ _ _ _ Hok) as (reqId & s & offId & o & Hs & Ho & Hne & Hown & Hst).
  set (rid1 := fresh (dom (swapRequests st))) in *.
  set (r1 := new_request caller (user s) reqId offId b now) in *.
  rewrite Hst.
  assert (Hs1 : findById (skills (insert_request rid1 r1 st)) (skillRequestedId b)
                = Some (reqId, s)) by done.
  assert (Ho1 : findById (skills (insert_request rid1 r1 st)) (skillOfferedId b)
                = Some (offId, o)) by done.
  rewrite (create_resolved _ _ _ now' _ _ _ _ Hs1 Ho1).
  rewrite decide_False by done. rewrite decide_False by tauto.
  set (rid2 := fresh (dom (swapRequests (insert_request rid1 r1 st)))).
  set (r2 := new_request caller (user s) reqId offId b now').
  assert (H1 : swapRequests st !! rid1 = None) by apply fresh_request_id.
  assert (H2 : swapRequests (insert_request rid1 r1 st) !! rid2 = None)
    by apply fresh_request_id.
  assert (Hne12 : rid1 ≠ rid2).
  { intros Heq. rewrite <- Heq in H2. simpl in H2. by rewrite lookup_insert_eq in H2. }
  assert (H2' : swapRequests st !! rid2 = None).
  { simpl in H2. by rewrite lookup_insert_ne in H2. }
  cbn [fst snd code insert_request swapRequests].
  split; [done|]. split; [|split].
  - rewrite map_size_insert_None by (by rewrite lookup_insert_ne).
    by rewrite map_size_insert_None.
  - intros rid r Hr.
    rewrite !lookup_insert_ne; [done|congruence..].
  - exists rid1, rid2, r1, r2.
    do 3 (split; [done|]).
    split; [by rewrite lookup_insert_ne, lookup_insert_eq|].
    split; [by rewrite lookup_insert_eq|]. done.
Qed.

(** Bob's request, sent twice, is stored twice. *)
Lemma create_is_not_deduplicated_witness :
  code (create Scenario.bob Scenario.ask 1001
          (create Scenario.bob Scenario.ask 1000 Scenario.catalog).2).1 = 201.
Proof.
  apply (create_is_not_deduplicated Scenario.catalog Scenario.bob Scenario.ask 1000 1001).
  reflexivity.
Defined.

(** ** The life of a request *)



(** X8. The status route checks in this order: 404 when the request does
    not resolve, whoever asks; then 403 when the caller is neither its
    requester nor its skill provider, whatever the body; then 400 with the
    "Invalid status" message when the body's status is missing or not one
    of ['in-progress'] and ['completed'], whatever the stored status. *)
Theorem status_route_checks_in_order st caller rid newStatus now :
  (swapRequests st !! rid = None →
   updateStatus caller rid newStatus now st = reject 404 "Swap request not found." st)
  ∧ ∀ r, swapRequests st !! rid = Some r →
      (caller ≠ requester r → caller ≠ skillProvider r →
       updateStatus caller rid newStatus now st
         = reject 403 "You can only update swaps you're part of." st)
      ∧ (caller = requester r ∨ caller = skillProvider r →
         newStatus ≠ Some "in-progress" → newStatus ≠ Some "completed" →
         updateStatus caller rid newStatus now st = reject 400 invalid_status_msg st).
Proof.
  split; [apply updateStatus_missing|].
  intros r Hr. rewrite (updateStatus_found_eq _ _ _ _ _ _ Hr). split.
  - intros H1 H2. by rewrite decide_True by (split; congruence).
  - intros Hpart H1 H2.
    rewrite decide_False by (intros [? ?]; destruct Hpart; congruence).
    destruct newStatus as [s|]; [|done].
    rewrite decide_True; [done|].
    rewrite validStatuses_spec. intros [-> | ->]; congruence.
Qed.

(** Carol is turned away from Bob and Alice's swap before her body is
    read. *)
Lemma status_route_checks_in_order_witness :
  updateStatus Scenario.carol Scenario.the_request (Some "no such status") 3000
    Scenario.accepted_store
  = reject 403 "You can only update swaps you're part of." Scenario.accepted_store.
Proof.
  destruct (status_route_checks_in_order Scenario.accepted_store Scenario.carol
              Scenario.the_request (Some "no such status") 3000) as [_ Hfound].
  destruct (Hfound Scenario.accepted_request) as [Hstranger _].
  - vm_compute. reflexivity.
  - apply Hstranger; discriminate.
Defined.

(** X9. No request the engine serves removes a swap request or rewrites
    what [POST /] wrote besides the status: its creation time, comments and
    request message stay, so the number of stored requests never goes
    down. *)
Theorem requests_are_kept st trace :
  (∀ rid r, swapRequests st !! rid = Some r →
     ∃ r', swapRequests (run trace st) !! rid = Some r'
           ∧ createdAt r' = createdAt r
           ∧ comments r' = comments r
           ∧ requestMessage r' = requestMessage r)
  ∧ (size (swapRequests st) ≤ size (swapRequests (run trace st)))%nat.
Proof.
  assert (Hkept : ∀ trace st rid r, swapRequests st !! rid = Some r →
     ∃ r', swapRequests (run trace st) !! rid = Some r'
           ∧ createdAt r' = createdAt r
           ∧ comments r' = comments r
           ∧ requestMessage r' = requestMessage r).
  { clear. induction trace as [|rq trace IH]; intros st rid r Hr; [by exists r|].
    assert (∃ r1, swapRequests (handle rq st).2 !! rid = Some r1
                  ∧ createdAt r1 = createdAt r
                  ∧ comments r1 = comments r
                  ∧ requestMessage r1 = requestMessage r)
      as (r1 & Hr1 & E1 & E2 & E3).
    { destruct (handle_changes st rq) as [-> | Hch]; [by exists r|].
      destruct (changes_lookup _ _ _ _ _ Hch Hr)
        as [Hsame | (s & msg & now & Hnew & _)]; [by exists r|].
      by eexists. }
    destruct (IH _ rid r1 Hr1) as (r' & Hr' & F1 & F2 & F3).
    exists r'. split; [exact Hr'|]. repeat split; congruence. }
  split; [by apply Hkept|].
  rewrite <- (size_dom (D := gset N) (swapRequests st)).
  rewrite <- (size_dom (D := gset N) (swapRequests (run trace st))).
  apply subseteq_size.
  intros rid. rewrite !elem_of_dom. intros [r Hr].
  destruct (Hkept trace st rid r Hr) as (r' & Hr' & _). by exists r'.
Qed.

(** Bob's request keeps its creation time through Alice's accept. *)
Lemma requests_are_kept_witness :
  ∃ r', swapRequests
          (run [PutAccept Scenario.alice Scenario.the_request None 2000]
             Scenario.pending_store) !! Scenario.the_request = Some r'
        ∧ createdAt r' = 1000.
Proof.
  destruct (requests_are_kept Scenario.pending_store
              [PutAccept Scenario.alice Scenario.the_request None 2000]) as [Hkept _].
  destruct (Hkept Scenario.the_request Scenario.pending_request)
    as (r' & Hr' & Hcreated & _); [vm_compute; reflexivity|].
  exists r'. split; [exact Hr' | exact Hcreated].
Defined.

(** ** The catalog's listings *)

#[local] Instance newest_skill_first_transitive : Transitive Skills.newest_skill_first.
Proof. intros a b c. unfold Skills.newest_skill_first. lia. Qed.

#[local] Instance newest_skill_first_total : Total Skills.newest_skill_first.
Proof. intros a b. unfold Skills.newest_skill_first. lia. Qed.

Lemma find_skills_NoDup keep st : NoDup (Skills.find_skills keep st).*1.
Proof.
  unfold Skills.find_skills. rewrite merge_sort_Permutation.
  eapply sublist_NoDup; [apply (NoDup_fst_map_to_list (skills st))|].
  apply fmap_sublist, sublist_filter.
Qed.

Lemma find_skills_sorted keep st :
  StronglySorted Skills.newest_skill_first (Skills.find_skills keep st).
Proof. unfold Skills.find_skills. apply StronglySorted_merge_sort; apply _. Qed.

(** X10. [GET /my-skills] returns exactly the caller's skills that are
    active, each once, newest created first, and [GET /user/:userId]
    returns the same list for that user with the owner populated; neither
    writes to the store. *)
Theorem my_skills_are_my_active_skills st u :
  ∃ ds,
    Skills.mySkills u st = (mkResponse 200 (MySkillsJson ds), st)
    ∧ Catalog.userSkills u st = (Replied 200 (Skills.populate_owner st <$> ds), st)
    ∧ (∀ sid s, (sid, s) ∈ ds ↔
         skills st !! sid = Some s ∧ user s = u ∧ isActive s = true)
    ∧ NoDup ds.*1
    ∧ StronglySorted Skills.newest_skill_first ds.
Proof.
  eexists. split; [reflexivity|]. split; [reflexivity|].
  split; [|split; [apply find_skills_NoDup | apply find_skills_sorted]].
  intros sid s. rewrite SkillsFacts.elem_of_find_skills. simpl.
  rewrite andb_true_iff, bool_decide_eq_true. tauto.
Qed.



(** ** Creating and editing skills *)

Lemma fresh_skill_id st : skills st !! fresh (dom (skills st)) = None.
Proof. apply not_elem_of_dom, is_fresh. Qed.

(** X12. [POST /skills] makes the caller the owner whatever [user] the
    body names. A body the schema accepts is stored under a new id, beside
    the skills already there, and answered 201; any other body is answered
    500 and nothing is stored. *)
Theorem created_skill_is_callers (msg : Catalog.SkillBody → string) st caller b now :
  (Catalog.valid_skill b = true →
   ∃ sid s,
     skills st !! sid = None
     ∧ user s = caller
     ∧ isActive s = default true (Catalog.sb_isActive b)
     ∧ Catalog.createSkill msg caller b now st
       = (Replied 201
            (Some {| sv_id := sid; sv_skill := s;
                     sv_user := summary <$> findById (users st) (Some caller) |}),
          Catalog.insert_skill sid s st)
     ∧ ∀ i x, skills st !! i = Some x →
         skills (Catalog.createSkill msg caller b now st).2 !! i = Some x)
  ∧ (Catalog.valid_skill b = false →
     Catalog.createSkill msg caller b now st = (Failed 500 (msg b), st)).
Proof.
  unfold Catalog.createSkill. split; intros ->; [|done].
  exists (fresh (dom (skills st))), (Catalog.new_skill caller b now).
  pose proof (fresh_skill_id st) as Hfresh.
  split; [done|]. do 2 (split; [done|]). split.
  - unfold findById at 1. simpl. by rewrite lookup_insert_eq.
  - intros i x Hx. simpl. rewrite lookup_insert_ne; [done|]. congruence.
Qed.

(** Alice adds woodwork; the body's claim that it is Bob's is
    overridden. *)
Lemma created_skill_is_callers_witness :
  ∃ sid s, skills (Catalog.createSkill (λ _, "ValidationError") Scenario.alice
                     Scenario2.woodwork 200 Scenario.catalog).2 !! sid = Some s
           ∧ user s = Scenario.alice.
Proof.
  destruct (created_skill_is_callers (λ _, "ValidationError") Scenario.catalog
              Scenario.alice Scenario2.woodwork 200) as [Hvalid _].
  destruct Hvalid as (sid & s & _ & Hown & _ & Hout & _); [reflexivity|].
  exists sid, s. split; [|exact Hown].
  rewrite Hout. simpl. apply lookup_insert_eq.
Defined.

Lemma updateSkill_found_eq st caller sid b now s :
  skills st !! sid = Some s →
  Catalog.updateSkill caller sid b now st =
    if decide (user s ≠ caller) then
      (Failed 403 "You can only edit your own skills.", st)
    else
      let st' := updated_skill sid (Catalog.edit b now) st in
      (Replied 200 (Some (Skills.populate_owner st' (sid, Catalog.edit b now s))), st').
Proof.
  intros Hs. unfold Catalog.updateSkill.
  rewrite (findByIdAndUpdate_hit _ _ _ _ Hs), findById_lookup, Hs.
  simpl. by case_decide.
Qed.

(** X13. [PUT /skills/:skillId] answers 404 for an id that does not
    resolve and 403 for a caller who is not the skill's owner, and then
    writes nothing. For the owner it answers 200 and changes that one
    skill only: the other skills, the users and the swap requests stay,
    and so does the skill's creation time. *)
Theorem only_the_owner_edits st caller sid b now :
  (skills st !! sid = None →
   Catalog.updateSkill caller sid b now st = (Failed 404 "Skill not found.", st))
  ∧ ∀ s, skills st !! sid = Some s →
      (user s ≠ caller →
       Catalog.updateSkill caller sid b now st
         = (Failed 403 "You can only edit your own skills.", st))
      ∧ (user s = caller →
         let out := Catalog.updateSkill caller sid b now st in
         reply_code out.1 = 200
         ∧ users out.2 = users st
         ∧ swapRequests out.2 = swapRequests st
         ∧ (∀ i, i ≠ sid → skills out.2 !! i = skills st !! i)
         ∧ ∃ s', skills out.2 !! sid = Some s'
                 ∧ skill_createdAt s' = skill_createdAt s
                 ∧ skill_updatedAt s' = now).
Proof.
  split.
  - intros Hs. unfold Catalog.updateSkill. by rewrite findById_lookup, Hs.
  - intros s Hs. rewrite (updateSkill_found_eq _ _ _ _ _ _ Hs). split.
    + intros Hne. by rewrite decide_True.
    + intros Hown. rewrite decide_False by tauto. simpl.
      do 3 (split; [done|]). split.
      * intros i Hi. by rewrite lookup_alter_ne.
      * exists (Catalog.edit b now s). by rewrite lookup_alter_eq, Hs.
Qed.

(** Bob cannot edit Alice's guitar lessons. *)
Lemma only_the_owner_edits_witness :
  Catalog.updateSkill Scenario.bob Scenario.guitar Scenario2.reactivate 200 Scenario.catalog
  = (Failed 403 "You can only edit your own skills.", Scenario.catalog).
Proof.
  destruct (only_the_owner_edits Scenario.catalog Scenario.bob Scenario.guitar
              Scenario2.reactivate 200) as [_ Hfound].
  destruct (Hfound (Scenario.offered_skill Scenario.alice "Guitar" "Music" true 100))
    as [Hother _]; [vm_compute; reflexivity|].
  apply Hother. discriminate.
Defined.

(** X14. The edit route stores what the create route refuses: a category
    outside the schema's enum makes [POST /skills] answer 500, while the
    owner's [PUT /skills/:skillId] with the same category answers 200 and
    the skill then carries it. *)
Theorem edit_skips_validation (msg : Catalog.SkillBody → string)
    st caller sid b now s c :
  Catalog.sb_category b = Some c →
  c ∉ Catalog.categories →
  skills st !! sid = Some s →
  user s = caller →
  reply_code (Catalog.createSkill msg caller b now st).1 = 500
  ∧ reply_code (Catalog.updateSkill caller sid b now st).1 = 200
  ∧ category <$> skills (Catalog.updateSkill caller sid b now st).2 !! sid = Some c.
Proof.
  intros Hc Hout Hs Hown. split; [|split].
  - unfold Catalog.createSkill.
    assert (Catalog.valid_skill b = false) as ->; [|done].
    unfold Catalog.valid_skill, Catalog.required_in at 1.
    by rewrite Hc, (bool_decide_eq_false_2 _ Hout), andb_false_r.
  - rewrite (updateSkill_found_eq _ _ _ _ _ _ Hs).
    by rewrite decide_False by tauto.
  - rewrite (updateSkill_found_eq _ _ _ _ _ _ Hs).
    rewrite decide_False by tauto. simpl.
    rewrite lookup_alter_eq, Hs. simpl. by rewrite Hc.
Qed.

(** "Juggling" is no category of the schema, yet Alice can file her guitar
    lessons under it. *)
Lemma edit_skips_validation_witness :
  category <$>
    skills (Catalog.updateSkill Scenario.alice Scenario.guitar Scenario2.juggling 200
              Scenario.catalog).2 !! Scenario.guitar
  = Some "Juggling".
Proof.
  apply (edit_skips_validation (λ _, "ValidationError") Scenario.catalog Scenario.alice
           Scenario.guitar Scenario2.juggling 200
           (Scenario.offered_skill Scenario.alice "Guitar" "Music" true 100) "Juggling").
  - reflexivity.
  - apply (bool_decide_eq_false_1 _). reflexivity.
  - vm_compute. reflexivity.
  - reflexivity.
Defined.

(** X15. A soft delete can be undone through the edit route: after the
    owner deletes an active skill and then edits it with a body that only
    sets [isActive] to [true], the skill is what it was before the delete
    but for its update time, and [GET /my-skills] lists it again. *)
Theorem soft_delete_is_undone_by_edit st caller sid s b t1 t2 :
  skills st !! sid = Some s →
  user s = caller →
  isActive s = true →
  b = Catalog.mkSkillBody None None None None None None None (Some true) →
  let st1 := (Skills.deleteSkill caller sid t1 st).2 in
  let out := Catalog.updateSkill caller sid b t2 st1 in
  reply_code out.1 = 200
  ∧ skills out.2 !! sid
    = Some {| user := user s; skillName := skillName s; category := category s;
              skillLevel := skillLevel s; timeFrame := timeFrame s;
              description := description s; type := type s; isActive := true;
              skill_createdAt := skill_createdAt s; skill_updatedAt := t2 |}
  ∧ (sid ∉ Skills.listed_ids (body (Skills.mySkills caller st1).1))
  ∧ (sid ∈ Skills.listed_ids (body (Skills.mySkills caller out.2).1)).
Proof.
  intros Hs Hown Hact -> st1 out. subst st1 out.
  rewrite (deleteSkill_found_eq _ _ _ _ _ Hs).
  rewrite decide_False by tauto. cbn [snd].
  set (st1 := updated_skill sid (Skills.deactivate t1) st).
  assert (Hs1 : skills st1 !! sid = Some (Skills.deactivate t1 s))
    by (simpl; by rewrite lookup_alter_eq, Hs).
  rewrite (updateSkill_found_eq _ _ _ _ _ _ Hs1).
  rewrite decide_False by (simpl; tauto). cbn [fst snd reply_code].
  split; [done|].
  assert (Hs2 : skills (updated_skill sid
                   (Catalog.edit (Catalog.mkSkillBody None None None None None None None
                                    (Some true)) t2) st1) !! sid
          = Some {| user := user s; skillName := skillName s; category := category s;
                    skillLevel := skillLevel s; timeFrame := timeFrame s;
                    description := description s; type := type s; isActive := true;
                    skill_createdAt := skill_createdAt s; skill_updatedAt := t2 |}).
  { simpl. by rewrite lookup_alter_eq, lookup_alter_eq, Hs. }
  split; [exact Hs2|]. split.
  - intros (s' & Hs' & Hact')%SkillsFacts.mySkills_lists_active.
    rewrite Hs1 in Hs'. by injection Hs' as <-.
  - simpl. apply list_elem_of_fmap. eexists (sid, _). split; [done|].
    apply SkillsFacts.elem_of_find_skills. split; [|exact Hs2].
    simpl. rewrite andb_true_iff, bool_decide_eq_true. done.
Qed.

(** Alice takes her guitar lessons off the catalog and puts them back. *)
Lemma soft_delete_is_undone_by_edit_witness :
  Scenario.guitar ∈
    Skills.listed_ids
      (body (Skills.mySkills Scenario.alice
               (Catalog.updateSkill Scenario.alice Scenario.guitar Scenario2.reactivate 300
                  (Skills.deleteSkill Scenario.alice Scenario.guitar 200
                     Scenario.catalog).2).2).1).
Proof.
  apply (soft_delete_is_undone_by_edit Scenario.catalog Scenario.alice Scenario.guitar
           (Scenario.offered_skill Scenario.alice "Guitar" "Music" true 100)
           Scenario2.reactivate 200 300).
  - vm_compute. reflexivity.
  - reflexivity.
  - reflexivity.
  - reflexivity.
Defined.

(** X16. The edit route writes the body's [user] like any other path: when
    the owner sends a body that names another user, the skill becomes that
    user's. The former owner is then answered 403 on editing or deleting
    it, the new owner may delete it, and the stored swap requests are as
    they were, whoever they name as skill provider. *)
Theorem edit_can_give_a_skill_away st caller other sid s b now now' b' :
  skills st !! sid = Some s →
  user s = caller →
  Catalog.sb_user b = Some other →
  other ≠ caller →
  let st' := (Catalog.updateSkill caller sid b now st).2 in
  user <$> skills st' !! sid = Some other
  ∧ swapRequests st' = swapRequests st
  ∧ reply_code (Catalog.updateSkill caller sid b' now' st').1 = 403
  ∧ code (Skills.deleteSkill caller sid now' st').1 = 403
  ∧ code (Skills.deleteSkill other sid now' st').1 = 200.
Proof.
  intros Hs Hown Hu Hne st'. subst st'.
  rewrite (updateSkill_found_eq _ _ _ _ _ _ Hs).
  rewrite decide_False by tauto. cbn [snd].
  set (st' := updated_skill sid (Catalog.edit b now) st).
  assert (Hs' : skills st' !! sid = Some (Catalog.edit b now s))
    by (simpl; by rewrite lookup_alter_eq, Hs).
  assert (Hu' : user (Catalog.edit b now s) = other) by (simpl; by rewrite Hu).
  split; [by rewrite Hs'; simpl; rewrite Hu|]. split; [done|].
  rewrite (updateSkill_found_eq _ _ _ _ _ _ Hs').
  rewrite !(deleteSkill_found_eq _ _ _ _ _ Hs'), Hu'.
  rewrite !(decide_True (P := other ≠ caller)) by done.
  by rewrite decide_False by tauto.
Qed.

(** Alice hands her guitar lessons to Bob and can no longer delete
    them. *)
Lemma edit_can_give_a_skill_away_witness :
  code (Skills.deleteSkill Scenario.alice Scenario.guitar 300
          (Catalog.updateSkill Scenario.alice Scenario.guitar Scenario2.to_bob 200
             Scenario.catalog).2).1 = 403.
Proof.
  apply (edit_can_give_a_skill_away Scenario.catalog Scenario.alice Scenario.bob
           Scenario.guitar
           (Scenario.offered_skill Scenario.alice "Guitar" "Music" true 100)
           Scenario2.to_bob 200 300 Scenario2.to_bob).
  - vm_compute. reflexivity.
  - reflexivity.
  - reflexivity.
  - discriminate.
Defined.



(** ** The token middleware *)

Lemma split_space_spaceless w : Auth.spaceless w = true → Auth.split_space w = [w].
Proof.
  induction w as [|c w IH]; simpl; [done|].
  rewrite andb_true_iff, negb_true_iff, bool_decide_eq_false.
  intros [Hc Hw]. rewrite decide_False by done. by rewrite (IH Hw).
Qed.

Lemma split_space_word w s :
  Auth.spaceless w = true →
  Auth.split_space (w +:+ String Auth.space s) = w :: Auth.split_space s.
Proof.
  induction w as [|c w IH]; simpl.
  - done.
  - rewrite andb_true_iff, negb_true_iff, bool_decide_eq_false.
    intros [Hc Hw]. rewrite decide_False by done. by rewrite (IH Hw).
Qed.

Lemma split_space_nonempty s : Auth.split_space s ≠ [].
Proof.
  destruct s as [|c s]; simpl; [done|].
  case_decide; [done|]. by destruct (Auth.split_space s).
Qed.

Lemma verifyToken_word verify scheme tok :
  Auth.spaceless scheme = true →
  Auth.spaceless tok = true →
  tok ≠ "" →
  Auth.verifyToken verify (Some (scheme +:+ String Auth.space tok)) =
    match verify tok with
    | Some p => inl p
    | None => inr (401, "Invalid token.")
    end.
Proof.
  intros Hscheme Htok Hne. unfold Auth.verifyToken.
  assert (Skills.given (Some (scheme +:+ String Auth.space tok))
          = Some (scheme +:+ String Auth.space tok)) as ->.
  { unfold Skills.given. rewrite decide_False; [done|]. by destruct scheme. }
  rewrite (split_space_word scheme), (split_space_spaceless tok) by done.
  cbn [lookup list_lookup]. unfold Skills.given. by rewrite decide_False.
Qed.

(** X18. [verifyToken] reads the second space-separated word of the
    [Authorization] header and nothing else: the first word need not be
    ["Bearer"], and whatever follows a further space is ignored. The
    header is answered 401 "No token provided." when it has no space or
    when that second word is empty, and 401 "Invalid token." when
    [jwt.verify] refuses the word; otherwise the token's payload becomes
    [req.user]. *)
Theorem only_the_second_word_is_read (verify : string → option Payload) scheme tok rest :
  Auth.spaceless scheme = true →
  Auth.spaceless tok = true →
  let outcome :=
    if decide (tok = "") then inr (401, "No token provided.")
    else match verify tok with
         | Some p => inl p
         | None => inr (401, "Invalid token.")
         end in
  Auth.verifyToken verify (Some (scheme +:+ String Auth.space tok)) = outcome
  ∧ Auth.verifyToken verify
      (Some (scheme +:+ String Auth.space (tok +:+ String Auth.space rest))) = outcome
  ∧ (scheme ≠ "" →
     Auth.verifyToken verify (Some scheme) = inr (401, "No token provided.")).
Proof.
  intros Hscheme Htok outcome. subst outcome.
  assert (Hgiven : ∀ s, Skills.given (Some (scheme +:+ String Auth.space s))
                        = Some (scheme +:+ String Auth.space s)).
  { intros s. unfold Skills.given. rewrite decide_False; [done|].
    by destruct scheme. }
  split; [|split].
  - unfold Auth.verifyToken. rewrite Hgiven, (split_space_word scheme) by done.
    rewrite (split_space_spaceless tok) by done.
    cbn [lookup list_lookup]. unfold Skills.given. by case_decide.
  - unfold Auth.verifyToken. rewrite Hgiven, (split_space_word scheme) by done.
    rewrite (split_space_word tok) by done.
    cbn [lookup list_lookup]. unfold Skills.given. by case_decide.
  - intros Hne. unfold Auth.verifyToken, Skills.given.
    rewrite decide_False by done.
    by rewrite (split_space_spaceless scheme).
Qed.

(** The header need not say "Bearer". *)
Lemma only_the_second_word_is_read_witness :
  Auth.verifyToken Scenario2.read (Some "Basic jwt.dave and more")
  = inl (mkPayload "dave" 0%N).
Proof.
  destruct (only_the_second_word_is_read Scenario2.read "Basic" "jwt.dave" "and more")
    as (_ & Hrest & _); [reflexivity..|].
  exact Hrest.
Defined.

(** ** Accounts *)

Lemma findOne_Some uname st i x :
  Auth.findOne uname st = Some (i, x) → users st !! i = Some x ∧ username x = uname.
Proof.
  unfold Auth.findOne. intros Hhead.
  assert ((i, x) ∈ filter (λ d, username d.2 = uname) (map_to_list (users st))) as Hin.
  { destruct (filter _ _) as [|d l]; [discriminate|].
    injection Hhead as ->. by apply elem_of_cons; left. }
  apply list_elem_of_filter in Hin as [Hname Hin].
  by apply elem_of_map_to_list in Hin.
Qed.

Lemma findOne_None uname st :
  Auth.findOne uname st = None ↔ ∀ i x, users st !! i = Some x → username x ≠ uname.
Proof.
  unfold Auth.findOne. split.
  - intros Hhead i x Hx Hname.
    assert ((i, x) ∈ filter (λ d, username d.2 = uname) (map_to_list (users st))) as Hin
      by (apply list_elem_of_filter; split; [done|by apply elem_of_map_to_list]).
    destruct (filter _ _); [by apply elem_of_nil in Hin|discriminate].
  - intros Hnone.
    destruct (filter _ _) as [|[i x] l] eqn:Hf; [done|].
    assert ((i, x) ∈ filter (λ d, username d.2 = uname) (map_to_list (users st))) as Hin
      by (rewrite Hf; by apply elem_of_cons; left).
    apply list_elem_of_filter in Hin as [Hname Hin].
    apply elem_of_map_to_list in Hin. by destruct (Hnone i x Hin).
Qed.


Lemma fresh_user_id st : users st !! fresh (dom (users st)) = None.
Proof. apply not_elem_of_dom, is_fresh. Qed.

(** X19. [POST /auth/sign-up] checks in this order: 400 when the username
    or the password is missing or empty; 400 when the password has fewer
    than six characters; 409 when an account already carries the
    username; all three store nothing. Otherwise it stores one new
    account, with the hash of the password, the name and location of the
    body or the empty string, and no bio, and answers 201 with a token
    for that account's username and id. *)
Theorem sign_up_checks_in_order
    (hashSync : string → nat → string) (sign : Payload → string) b st :
  (Skills.given (Auth.cr_username b) = None ∨ Skills.given (Auth.cr_password b) = None →
   Auth.signUp hashSync sign b st
     = (Failed 400 "Username and password are required.", st))
  ∧ ∀ uname password,
      Skills.given (Auth.cr_username b) = Some uname →
      Skills.given (Auth.cr_password b) = Some password →
      ((String.length password < 6)%nat →
       Auth.signUp hashSync sign b st
         = (Failed 400 "Password must be at least 6 characters long.", st))
      ∧ ((6 ≤ String.length password)%nat →
         (∃ i x, users st !! i = Some x ∧ username x = uname) →
         Auth.signUp hashSync sign b st = (Failed 409 "Username already taken.", st))
      ∧ ((6 ≤ String.length password)%nat →
         (∀ i x, users st !! i = Some x → username x ≠ uname) →
         ∃ uid,
           users st !! uid = None
           ∧ Auth.signUp hashSync sign b st
             = (Replied 201 (sign (mkPayload uname uid)),
                Auth.insert_user uid
                  {| username := uname;
                     hashedPassword := hashSync password 12%nat;
                     name := Some (default "" (Skills.given (Auth.cr_name b)));
                     location := Some (default "" (Skills.given (Auth.cr_location b)));
                     bio := None |} st)).
Proof.
  unfold Auth.signUp. split.
  - intros [-> | ->]; [done|]. by destruct (Skills.given (Auth.cr_username b)).
  - intros uname password -> ->. split; [|split].
    + intros Hshort. by rewrite decide_True.
    + intros Hlong (i & x & Hx & Hname). rewrite decide_False by lia.
      destruct (Auth.findOne uname st) eqn:Hfind; [done|].
      by destruct (proj1 (findOne_None uname st) Hfind i x Hx).
    + intros Hlong Hfree. rewrite decide_False by lia.
      rewrite (proj2 (findOne_None uname st) Hfree).
      exists (fresh (dom (users st))). split; [apply fresh_user_id|done].
Qed.

(** Dave signs up to an empty database. *)
Lemma sign_up_checks_in_order_witness :
  reply_code (Auth.signUp Scenario2.hash Scenario2.token Scenario2.dave
                Scenario2.empty_store).1 = 201.
Proof.
  destruct (sign_up_checks_in_order Scenario2.hash Scenario2.token Scenario2.dave
              Scenario2.empty_store) as [_ Hgiven].
  destruct (Hgiven "dave" "secret1") as (_ & _ & Hnew); [reflexivity..|].
  destruct Hnew as (uid & _ & ->).
  - simpl. lia.
  - intros i x Hx. simpl in Hx. by rewrite lookup_empty in Hx.
  - reflexivity.
Defined.





(** X22. A sign-in that carries a username and a password and is not
    answered 200 is answered 401 "Invalid credentials.", whether no account
    has the username or the password is wrong: the answer does not tell
    the two apart. A sign-in never writes. *)
Theorem sign_in_failures_look_alike
    (compareSync : string → string → bool) (sign : Payload → string) b st uname password :
  Skills.given (Auth.cr_username b) = Some uname →
  Skills.given (Auth.cr_password b) = Some password →
  (Auth.signIn compareSync sign b st).2 = st
  ∧ (reply_code (Auth.signIn compareSync sign b st).1 ≠ 200 →
     (Auth.signIn compareSync sign b st).1 = Failed 401 "Invalid credentials.")
  ∧ (reply_code (Auth.signIn compareSync sign b st).1 = 200 ↔
     ∃ uid u, Auth.findOne uname st = Some (uid, u)
              ∧ compareSync password (hashedPassword u) = true).
Proof.
  intros Hu Hp. unfold Auth.signIn. rewrite Hu, Hp.
  destruct (Auth.findOne uname st) as [[uid u]|]; simpl.
  - destruct (compareSync password (hashedPassword u)) eqn:Hcmp; simpl.
    + split; [done|]. split; [done|]. split; [|done]. intros _. by exists uid, u.
    + split; [done|]. split; [done|]. split; [done|].
      intros (? & ? & [= <- <-] & ?). congruence.
  - split; [done|]. split; [done|]. split; [done|]. by intros (? & ? & [=] & _).
Qed.

(** A wrong password for Dave and a sign-in to an empty database get the
    same answer. *)
Lemma sign_in_failures_look_alike_witness :
  (Auth.signIn Scenario2.check Scenario2.token Scenario2.dave Scenario2.empty_store).1
  = Failed 401 "Invalid credentials.".
Proof.
  destruct (sign_in_failures_look_alike Scenario2.check Scenario2.token Scenario2.dave
              Scenario2.empty_store "dave" "secret1") as (_ & Hfail & _);
    [reflexivity..|].
  apply Hfail. discriminate.
Defined.

(** X23. The token of a sign-in names the account that signed in: when a
    sign-in is answered 200 with a token that [jwt.verify] reads back as
    the payload it was signed for, and the token holds no space, then
    [verifyToken] on the header "Bearer <token>" hands the routes the id
    of a stored account whose username is the one in the body. *)
Theorem token_names_the_account
    (compareSync : string → string → bool) (sign : Payload → string)
    (verify : string → option Payload) b st tok :
  (∀ p, sign p = tok → verify tok = Some p) →
  (Auth.signIn compareSync sign b st).1 = Replied 200 tok →
  Auth.spaceless tok = true →
  tok ≠ "" →
  ∃ p u,
    Auth.verifyToken verify (Some ("Bearer" +:+ String Auth.space tok)) = inl p
    ∧ users st !! p_id p = Some u
    ∧ username u = p_username p
    ∧ Skills.given (Auth.cr_username b) = Some (p_username p).
Proof.
  intros Hjwt Hin Hspace Hne. revert Hin. unfold Auth.signIn.
  destruct (Skills.given (Auth.cr_username b)) as [uname|]; [|discriminate].
  destruct (Skills.given (Auth.cr_password b)) as [password|]; [|discriminate].
  destruct (Auth.findOne uname st) as [[uid u]|] eqn:Hfind; [|discriminate].
  destruct (compareSync password (hashedPassword u)); [|discriminate].
  cbn [fst]. intros [= <-].
  apply findOne_Some in Hfind as [Hu Hname].
  exists (mkPayload (username u) uid), u.
  split; [|by rewrite Hname].
  rewrite (verifyToken_word verify "Bearer") by done.
  by rewrite (Hjwt (mkPayload (username u) uid)).
Qed.

(** Dave's token, sent as a bearer token, is read as Dave's. *)
Lemma token_names_the_account_witness :
  ∃ p, Auth.verifyToken Scenario2.read (Some "Bearer jwt.dave") = inl p
       ∧ p_username p = "dave".
Proof.
  destruct (token_names_the_account Scenario2.check Scenario2.token Scenario2.read
              Scenario2.dave
              (Auth.signUp Scenario2.hash Scenario2.token Scenario2.dave
                 Scenario2.empty_store).2
              "jwt.dave")
    as (p & u & Hp & _ & _ & Hname).
  - intros [uname uid]. unfold Scenario2.token. simpl.
    destruct (bool_decide (uname = "dave")) eqn:H1;
      destruct (bool_decide (uid = 0%N)) eqn:H2; simpl; try discriminate.
    apply bool_decide_eq_true in H1 as ->. apply bool_decide_eq_true in H2 as ->.
    reflexivity.
  - reflexivity.
  - reflexivity.
  - discriminate.
  - exists p. split; [exact Hp|]. by injection Hname as <-.
Defined.

(** ** Profiles *)

(** X24. [PUT /users/profile/me] answers 404 and writes nothing when the
    caller's account does not resolve. Otherwise it answers 200 and
    rewrites that account only: the name, location and bio the body
    carries are set, those it leaves out stay, and the username and the
    password hash are never touched; other accounts, skills and swap
    requests stay as they were. *)
Theorem profile_update_is_local st caller b :
  (users st !! caller = None →
   Users.updateProfile caller b st = (Failed 404 "User not found.", st))
  ∧ ∀ u, users st !! caller = Some u →
      let out := Users.updateProfile caller b st in
      ∃ u',
        users out.2 !! caller = Some u'
        ∧ out.1 = Replied 200 (Users.public (caller, u'))
        ∧ username u' = username u
        ∧ hashedPassword u' = hashedPassword u
        ∧ name u' = from_option Some (name u) (Users.pb_name b)
        ∧ location u' = from_option Some (location u) (Users.pb_location b)
        ∧ bio u' = from_option Some (bio u) (Users.pb_bio b)
        ∧ (∀ i, i ≠ caller → users out.2 !! i = users st !! i)
        ∧ skills out.2 = skills st
        ∧ swapRequests out.2 = swapRequests st.
Proof.
  unfold Users.updateProfile, findByIdAndUpdate. rewrite findById_lookup, lookup_alter_eq.
  split.
  - by intros ->.
  - intros u Hu. rewrite Hu. simpl. exists (Users.set_profile b u).
    split; [by rewrite lookup_alter_eq, Hu|]. split; [done|].
    do 2 (split; [done|]).
    split; [simpl; by destruct (Users.pb_name b)|].
    split; [simpl; by destruct (Users.pb_location b)|].
    split; [simpl; by destruct (Users.pb_bio b)|].
    split; [|done]. intros i Hi. by rewrite lookup_alter_ne.
Qed.

(** Bob becomes Robert and stays in Berlin. *)
Lemma profile_update_is_local_witness :
  ∃ u', users (Users.updateProfile Scenario.bob Scenario2.rename Scenario.catalog).2
          !! Scenario.bob = Some u'
        ∧ name u' = Some "Robert"
        ∧ location u' = Some "Berlin".
Proof.
  destruct (profile_update_is_local Scenario.catalog Scenario.bob Scenario2.rename)
    as [_ Hfound].
  destruct (Hfound (Scenario.person "bob" "Berlin"))
    as (u' & Hu' & _ & _ & _ & Hname & Hloc & _); [vm_compute; reflexivity|].
  exists u'. split; [exact Hu'|]. split; [exact Hname | exact Hloc].
Defined.

(** X25. A swap request shows its parties as they are when it is read:
    after a profile update by a party of a stored request, the request's
    populated view carries the new name, location kept or changed as the
    body says, while the stored request itself is unchanged. *)
Theorem views_follow_the_profile st caller b u rid r :
  users st !! caller = Some u →
  swapRequests st !! rid = Some r →
  let st' := (Users.updateProfile caller b st).2 in
  let shown :=
    Some {| us_id := caller; us_username := username u;
            us_name := from_option Some (name u) (Users.pb_name b);
            us_location := from_option Some (location u) (Users.pb_location b) |} in
  swapRequests st' !! rid = Some r
  ∧ (requester r = caller → v_requester (populate st' (rid, r)) = shown)
  ∧ (skillProvider r = caller → v_skillProvider (populate st' (rid, r)) = shown)
  ∧ v_skillRequested (populate st' (rid, r)) = v_skillRequested (populate st (rid, r))
  ∧ v_skillOffered (populate st' (rid, r)) = v_skillOffered (populate st (rid, r)).
Proof.
  intros Hu Hr st' shown. subst st' shown.
  unfold Users.updateProfile, findByIdAndUpdate.
  rewrite findById_lookup, lookup_alter_eq, Hu. simpl.
  split; [done|].
  assert (Hshown : populate_user
            {| users := alter (Users.set_profile b) caller (users st);
               skills := skills st; swapRequests := swapRequests st |} caller
          = Some {| us_id := caller; us_username := username u;
                    us_name := from_option Some (name u) (Users.pb_name b);
                    us_location := from_option Some (location u) (Users.pb_location b) |}).
  { unfold populate_user. rewrite findById_lookup. simpl.
    rewrite lookup_alter_eq, Hu. simpl. unfold summary. simpl.
    by destruct (Users.pb_name b), (Users.pb_location b). }
  split; [by intros ->|]. split; [by intros ->|]. done.
Qed.

(** Bob's request names him Robert once he has renamed himself. *)
Lemma views_follow_the_profile_witness :
  us_name <$>
    v_requester
      (populate (Users.updateProfile Scenario.bob Scenario2.rename Scenario.pending_store).2
         (Scenario.the_request, Scenario.pending_request))
  = Some (Some "Robert").
Proof.
  destruct (views_follow_the_profile Scenario.pending_store Scenario.bob Scenario2.rename
              (Scenario.person "bob" "Berlin") Scenario.the_request
              Scenario.pending_request)
    as (_ & Hreq & _); [vm_compute; reflexivity..|].
  rewrite Hreq; reflexivity.
Defined.



(** X27. A profile is answered 404 when the account does not resolve, even
    if skills carry that user id; otherwise it is answered 200 with the
    account and, under offered and wanted, exactly the stored skills of
    that user that are active and of that type, each once. Soft-deleted
    skills and skills of any other type are in neither list. *)
Theorem profile_shows_active_skills st userId :
  (Users.profile userId st).2 = st
  ∧ (users st !! userId = None →
     (Users.profile userId st).1 = Failed 404 "User not found.")
  ∧ ∀ u, users st !! userId = Some u →
      ∃ p,
        (Users.profile userId st).1 = Replied 200 p
        ∧ Users.pr_user p = Users.public (userId, u)
        ∧ (∀ sid s, (sid, s) ∈ Users.pr_skillsOffered p ↔
             skills st !! sid = Some s ∧ user s = userId
             ∧ isActive s = true ∧ type s = "offered")
        ∧ (∀ sid s, (sid, s) ∈ Users.pr_skillsWanted p ↔
             skills st !! sid = Some s ∧ user s = userId
             ∧ isActive s = true ∧ type s = "wanted")
        ∧ NoDup (Users.pr_skillsOffered p).*1
        ∧ NoDup (Users.pr_skillsWanted p).*1.
Proof.
  unfold Users.profile. rewrite findById_lookup.
  destruct (users st !! userId) as [u0|]; simpl.
  2: { split; [done|]. split; [done|]. discriminate. }
  split; [done|]. split; [discriminate|].
  intros u [= <-]. eexists. split; [reflexivity|]. split; [done|]. simpl.
  assert (Hlisted : ∀ ty sid s,
    (sid, s) ∈ filter (λ d : N * Skill, type d.2 = ty)
                 (filter (λ d : N * Skill, user d.2 = userId ∧ isActive d.2 = true)
                    (map_to_list (skills st)))
    ↔ skills st !! sid = Some s ∧ user s = userId ∧ isActive s = true ∧ type s = ty).
  { intros ty sid s. rewrite !list_elem_of_filter, elem_of_map_to_list. simpl. tauto. }
  assert (Hnodup : ∀ ty,
    NoDup (filter (λ d : N * Skill, type d.2 = ty)
             (filter (λ d : N * Skill, user d.2 = userId ∧ isActive d.2 = true)
                (map_to_list (skills st)))).*1).
  { intros ty. eapply sublist_NoDup; [apply (NoDup_fst_map_to_list (skills st))|].
    apply fmap_sublist. etrans; apply sublist_filter. }
  split; [apply Hlisted|]. split; [apply Hlisted|]. split; apply Hnodup.
Qed.

(** Alice's profile offers her guitar lessons and not the archived piano
    course. *)
Lemma profile_shows_active_skills_witness :
  ∃ p, (Users.profile Scenario.alice Scenario.catalog).1 = Replied 200 p
       ∧ (Users.pr_skillsOffered p).*1 = [Scenario.guitar].
Proof.
  destruct (profile_shows_active_skills Scenario.catalog Scenario.alice)
    as (_ & _ & Hfound).
  destruct (Hfound (Scenario.person "alice" "Athens")) as (p & Hp & _);
    [vm_compute; reflexivity|].
  exists p. split; [exact Hp|].
  vm_compute in Hp. injection Hp as <-. reflexivity.
Defined.
